(** * A model of the LMS application (src/app.py)

    The Flask application of src/app.py is embedded as a family of request
    handlers in a small state-and-exception monad.  The state is the client's
    session, the five tables of the SQLite database, the upload folder and a
    journal of the storage effects issued so far.  The ORM behaviour that the
    model classes of app.py configure (NOT NULL columns, the unique email,
    the relationships and their cascade options) is written out in the
    primitives of the [Orm] section. *)

From Stdlib Require Import ZArith Strings.String Strings.Byte Lia.
From stdpp Require Import base tactics decidable option list strings gmap.

Local Open Scope string_scope.
Local Open Scope Z_scope.

(** ** Models (app.py, lines 59-105) *)

Module User.
Record t := mk
  { id : Z; name : string; email : string; password : string; role : string }.
#[global] Instance eq_dec : EqDecision t.
Proof. solve_decision. Defined.
End User.

Module Course.
Record t := mk
  { id : Z; title : string; description : string; teacher_id : Z }.
#[global] Instance eq_dec : EqDecision t.
Proof. solve_decision. Defined.
End Course.

Module Enrollment.
Record t := mk { id : Z; student_id : Z; course_id : Z }.
#[global] Instance eq_dec : EqDecision t.
Proof. solve_decision. Defined.
End Enrollment.

(** [content] is the Python attribute: [request.form.get("content")] may put
    [None] there; the column itself is declared [nullable=False]. *)
Module Lesson.
Record t := mk
  { id : Z; title : string; content : option string; course_id : Z }.
#[global] Instance eq_dec : EqDecision t.
Proof. solve_decision. Defined.
End Lesson.

Module LessonFile.
Record t := mk { id : Z; filename : string; lesson_id : Z }.
#[global] Instance eq_dec : EqDecision t.
Proof. solve_decision. Defined.
End LessonFile.

(** The database: one list of rows per table, in rowid order. *)
Record DB := mkDB
  { users : list User.t;
    courses : list Course.t;
    enrollments : list Enrollment.t;
    lessons : list Lesson.t;
    lesson_files : list LessonFile.t }.

(** The Flask session of the requesting client.  [flash] appends to
    [flashes] (the session key [_flashes]). *)
Record Session := mkSession
  { user_id : option Z;
    user_name : option string;
    user_role : option string;
    flashes : list string }.

Definition bytes := list byte.

(** Storage effects, journalled in the order in which they are issued. *)
Inductive Table := t_user | t_course | t_enrollment | t_lesson | t_lesson_file.

Inductive Effect :=
  | SqlInsert (t : Table) (id : Z)
  | SqlUpdate (t : Table) (id : Z)
  | SqlDelete (t : Table) (id : Z)
  | FileSave (name : string)
  | OsRemove (name : string).

Record World := mkWorld
  { session : Session;
    db : DB;
    uploads : gmap string bytes;      (* the files of UPLOAD_FOLDER, by name *)
    journal : list Effect }.

(** ** Requests and responses *)

Inductive Method := GET | POST.

Record FileStorage := mkFile { file_filename : string; file_data : bytes }.

(** What a request brings: its method, its form, the uploaded file of key
    "file", the salt that [generate_password_hash] draws, and whether the
    disk or the database engine refuses the write that attaches a file
    ([file.save] raising OSError, the commit of the LessonFile row raising
    OperationalError).  These two failures are only modelled in
    [add_lesson]; elsewhere both collaborators are taken as reliable. *)
Record Request := mkRequest
  { method : Method;
    form : gmap string string;
    files_file : option FileStorage;
    salt : string;
    save_raises : bool;
    file_row_commit_raises : bool }.

Inductive Endpoint :=
  | ep_home | ep_signup | ep_login | ep_dashboard | ep_teacher_courses
  | ep_all_courses | ep_course_detail (course_id : Z).

Inductive Response :=
  | RedirectTo (e : Endpoint)
  | index_html
  | signup_html
  | login_html
  | student_dashboard_html (courses : list (option Course.t))
  | teacher_dashboard_html
  | teacher_courses_html (courses : list Course.t)
  | create_course_html
  | edit_course_html (course : Course.t)
  | all_courses_html (courses : list Course.t) (enrolled_course_ids : list Z)
  | course_detail_html (course : Course.t) (enrolled : bool)
                       (enrolled_students : list (option User.t))
  | add_lesson_html (course : Course.t)
  | edit_lesson_html (lesson : Lesson.t)
  | SendFile (data : bytes).

(** Exceptions that leave a handler.  [NotFound] is answered with status
    404 and [BadRequest] with 400; every other one is an unhandled
    exception, answered with 500. *)
Inductive Exn :=
  | NotFound | BadRequest | KeyError | AttributeError
  | IntegrityError | OSError | OperationalError.

Definition status (r : Exn + Response) : Z :=
  match r with
  | inl NotFound => 404
  | inl BadRequest => 400
  | inl _ => 500
  | inr (RedirectTo _) => 302
  | inr _ => 200
  end.

(** ** The handler monad *)

Definition M (A : Type) : Type := World → (Exn + A) * World.

Definition ret {A} (a : A) : M A := λ w, (inr a, w).

Definition bind {A B} (m : M A) (k : A → M B) : M B :=
  λ w, match m w with
       | (inr a, w') => k a w'
       | (inl e, w') => (inl e, w')
       end.

Definition raise {A} (e : Exn) : M A := λ w, (inl e, w).

#[export] Instance M_ret : MRet M := @ret.
#[export] Instance M_bind : MBind M := λ A B k m, bind m k.

Definition get_session : M Session := λ w, (inr (session w), w).
Definition get_db : M DB := λ w, (inr (db w), w).
Definition get_uploads : M (gmap string bytes) := λ w, (inr (uploads w), w).

Definition put_session (s : Session) : M unit :=
  λ w, (inr tt, mkWorld s (db w) (uploads w) (journal w)).
Definition put_db (d : DB) : M unit :=
  λ w, (inr tt, mkWorld (session w) d (uploads w) (journal w)).
Definition put_uploads (u : gmap string bytes) : M unit :=
  λ w, (inr tt, mkWorld (session w) (db w) u (journal w)).
Definition emit (es : list Effect) : M unit :=
  λ w, (inr tt, mkWorld (session w) (db w) (uploads w) (journal w ++ es)).

(** ** Flask primitives *)

Definition flash (msg : string) : M unit :=
  s ← get_session;
  put_session (mkSession (user_id s) (user_name s) (user_role s)
                         (flashes s ++ [msg])).

Definition redirect (e : Endpoint) : M Response := ret (RedirectTo e).

(** Python truthiness of [session.get("user_id")]: [None] and [0] are
    false. *)
Definition truthy_id (o : option Z) : bool :=
  match o with
  | Some n => negb (n =? 0)
  | None => false
  end.

(** [session["user_id"]] and [session["user_role"]]: KeyError when the key
    is missing. *)
Definition session_user_id : M Z :=
  s ← get_session;
  match user_id s with Some n => ret n | None => raise KeyError end.

Definition session_user_role : M string :=
  s ← get_session;
  match user_role s with Some r => ret r | None => raise KeyError end.

(** [request.form[key]]: a missing key is a 400. *)
Definition form_item (req : Request) (key : string) : M string :=
  match form req !! key with Some v => ret v | None => raise BadRequest end.

(** [request.form.get(key)] *)
Definition form_get (req : Request) (key : string) : option string :=
  form req !! key.

(** ** Auth decorators (lines 34-53) *)

Definition login_required (f : M Response) : M Response :=
  s ← get_session;
  if negb (truthy_id (user_id s))
  then flash "Please login first";; redirect ep_login
  else f.

Definition teacher_required (f : M Response) : M Response :=
  s ← get_session;
  if negb (truthy_id (user_id s))
  then flash "Please login first";; redirect ep_login
  else if decide (user_role s ≠ Some "teacher")
  then flash "Teachers only";; redirect ep_dashboard
  else f.

(** ** The persistence layer, as app.py configures it *)

Section Orm.

(** SQLite gives a new row the rowid after the largest one in use. *)
Definition next_id (ids : list Z) : Z := 1 + foldr Z.max 0 ids.

(** [abort(404)] of [get_or_404] *)
Definition get_or_404 {A} (o : option A) : M A :=
  match o with Some a => ret a | None => raise NotFound end.

(** [Model.query.get(id)] *)
Definition User_get (d : DB) (i : Z) : option User.t :=
  head (filter (λ u, User.id u = i) (users d)).
Definition Course_get (d : DB) (i : Z) : option Course.t :=
  head (filter (λ c, Course.id c = i) (courses d)).
Definition Lesson_get (d : DB) (i : Z) : option Lesson.t :=
  head (filter (λ l, Lesson.id l = i) (lessons d)).

(** [filter_by(...).all()]; [.first()] is the [head] of it. *)
Definition User_by_email (d : DB) (e : string) : list User.t :=
  filter (λ u, User.email u = e) (users d).
Definition Course_by_teacher (d : DB) (t : Z) : list Course.t :=
  filter (λ c, Course.teacher_id c = t) (courses d).
Definition Enrollment_by_student (d : DB) (s : Z) : list Enrollment.t :=
  filter (λ e, Enrollment.student_id e = s) (enrollments d).
Definition Enrollment_by_course (d : DB) (c : Z) : list Enrollment.t :=
  filter (λ e, Enrollment.course_id e = c) (enrollments d).
Definition Enrollment_by_pair (d : DB) (s c : Z) : list Enrollment.t :=
  filter (λ e, Enrollment.student_id e = s ∧ Enrollment.course_id e = c)
         (enrollments d).

(** The relationships: [e.course], [e.student], [lesson.course] load the
    referenced row ([None] when it is missing); the backrefs
    [course.lessons] and [lesson.files] load the referencing rows. *)
Definition Enrollment_course (d : DB) (e : Enrollment.t) : option Course.t :=
  Course_get d (Enrollment.course_id e).
Definition Enrollment_student (d : DB) (e : Enrollment.t) : option User.t :=
  User_get d (Enrollment.student_id e).
Definition Lesson_course (d : DB) (l : Lesson.t) : option Course.t :=
  Course_get d (Lesson.course_id l).
Definition Course_lessons (d : DB) (c : Course.t) : list Lesson.t :=
  filter (λ l, Lesson.course_id l = Course.id c) (lessons d).
Definition Lesson_files (d : DB) (l : Lesson.t) : list LessonFile.t :=
  filter (λ f, LessonFile.lesson_id f = Lesson.id l) (lesson_files d).

(** [db.session.add(User(...)); db.session.commit()].  The email column is
    [unique=True]: a second row with the same email is an IntegrityError. *)
Definition add_User (name email password role : string) : M unit :=
  d ← get_db;
  if decide (email ∈ User.email <$> users d) then raise IntegrityError
  else
    let u := User.mk (next_id (User.id <$> users d)) name email password role in
    put_db (mkDB (users d ++ [u]) (courses d) (enrollments d) (lessons d)
                 (lesson_files d));;
    emit [SqlInsert t_user (User.id u)].

(** Foreign keys are declared but SQLite does not enforce them unless the
    connection turns them on, which app.py never does: an insert does not
    look at the referenced table. *)
Definition add_Course (title description : string) (teacher_id : Z) : M unit :=
  d ← get_db;
  let c := Course.mk (next_id (Course.id <$> courses d)) title description
                     teacher_id in
  put_db (mkDB (users d) (courses d ++ [c]) (enrollments d) (lessons d)
               (lesson_files d));;
  emit [SqlInsert t_course (Course.id c)].

Definition add_Enrollment (student_id course_id : Z) : M unit :=
  d ← get_db;
  let e := Enrollment.mk (next_id (Enrollment.id <$> enrollments d))
                         student_id course_id in
  put_db (mkDB (users d) (courses d) (enrollments d ++ [e]) (lessons d)
               (lesson_files d));;
  emit [SqlInsert t_enrollment (Enrollment.id e)].

(** [Lesson.content] is [nullable=False]: committing a lesson whose
    content is [None] is an IntegrityError and stores nothing. *)
Definition add_Lesson (title : string) (content : option string)
    (course_id : Z) : M Lesson.t :=
  d ← get_db;
  match content with
  | None => raise IntegrityError
  | Some _ =>
      let l := Lesson.mk (next_id (Lesson.id <$> lessons d)) title content
                         course_id in
      put_db (mkDB (users d) (courses d) (enrollments d) (lessons d ++ [l])
                   (lesson_files d));;
      emit [SqlInsert t_lesson (Lesson.id l)];;
      ret l
  end.

Definition add_LessonFile (req : Request) (filename : string)
    (lesson_id : Z) : M unit :=
  d ← get_db;
  if file_row_commit_raises req then raise OperationalError
  else
    let f := LessonFile.mk (next_id (LessonFile.id <$> lesson_files d))
                           filename lesson_id in
    put_db (mkDB (users d) (courses d) (enrollments d) (lessons d)
                 (lesson_files d ++ [f]));;
    emit [SqlInsert t_lesson_file (LessonFile.id f)].

(** Attribute assignment followed by [db.session.commit()]: an UPDATE is
    issued when the row changed. *)
Definition update_Course (c : Course.t) (title description : string) : M unit :=
  d ← get_db;
  let c' := Course.mk (Course.id c) title description (Course.teacher_id c) in
  if decide (c' = c) then (ret tt : M unit)
  else
    put_db (mkDB (users d)
                 ((λ x, if decide (Course.id x = Course.id c) then c' else x)
                    <$> courses d)
                 (enrollments d) (lessons d) (lesson_files d));;
    emit [SqlUpdate t_course (Course.id c)].

Definition update_Lesson (l : Lesson.t) (title : string)
    (content : option string) : M unit :=
  d ← get_db;
  let l' := Lesson.mk (Lesson.id l) title content (Lesson.course_id l) in
  if decide (l' = l) then (ret tt : M unit)
  else
    match content with
    | None => raise IntegrityError
    | Some _ =>
        put_db (mkDB (users d) (courses d) (enrollments d)
                     ((λ x, if decide (Lesson.id x = Lesson.id l) then l' else x)
                        <$> lessons d)
                     (lesson_files d));;
        emit [SqlUpdate t_lesson (Lesson.id l)]
    end.

(** [db.session.delete(course); db.session.commit()].  The backrefs
    [Course.lessons] and [Course.enrollments] (lines 82 and 91) carry no
    delete cascade, so the unit of work detaches the children: it sets
    their [course_id] to NULL.  Both columns are [nullable=False], so with
    any lesson or enrollment of the course the flush is an IntegrityError
    and the transaction is rolled back.  Otherwise the course row goes. *)
Definition delete_Course (c : Course.t) : M unit :=
  d ← get_db;
  match Course_lessons d c, Enrollment_by_course d (Course.id c) with
  | [], [] =>
      put_db (mkDB (users d)
                   (filter (λ x, Course.id x ≠ Course.id c) (courses d))
                   (enrollments d) (lessons d) (lesson_files d));;
      emit [SqlDelete t_course (Course.id c)]
  | _, _ => raise IntegrityError
  end.

Definition delete_Enrollment (e : Enrollment.t) : M unit :=
  d ← get_db;
  put_db (mkDB (users d) (courses d)
               (filter (λ x, Enrollment.id x ≠ Enrollment.id e) (enrollments d))
               (lessons d) (lesson_files d));;
  emit [SqlDelete t_enrollment (Enrollment.id e)].

(** [db.session.delete(lesson); db.session.commit()].  The backref
    [Lesson.files] has [cascade="all, delete-orphan"] (line 104): the
    unit of work deletes the LessonFile rows of the lesson, then the
    lesson row. *)
Definition delete_Lesson (l : Lesson.t) : M unit :=
  d ← get_db;
  put_db (mkDB (users d) (courses d) (enrollments d)
               (filter (λ x, Lesson.id x ≠ Lesson.id l) (lessons d))
               (filter (λ f, LessonFile.lesson_id f ≠ Lesson.id l)
                       (lesson_files d)));;
  emit ((SqlDelete t_lesson_file ∘ LessonFile.id <$> Lesson_files d l)
          ++ [SqlDelete t_lesson (Lesson.id l)]).

End Orm.

(** ** The upload folder *)

Section Uploads.

(** [os.path.exists(os.path.join(UPLOAD_FOLDER, name))] *)
Definition os_path_exists (name : string) : M bool :=
  fs ← get_uploads;
  ret (bool_decide (is_Some (fs !! name))).

(** [os.remove]: FileNotFoundError (an OSError) on a missing file. *)
Definition os_remove (name : string) : M unit :=
  fs ← get_uploads;
  match fs !! name with
  | Some _ => put_uploads (delete name fs);; emit [OsRemove name]
  | None => raise OSError
  end.

(** [file.save(os.path.join(UPLOAD_FOLDER, name))]: writes the bytes under
    that name, replacing a file already there.  With an empty name the
    path is the folder itself and opening it fails. *)
Definition file_save (req : Request) (name : string) (data : bytes) : M unit :=
  fs ← get_uploads;
  if save_raises req then raise OSError
  else if decide (name = "") then raise OSError
  else put_uploads (<[name := data]> fs);; emit [FileSave name].

(** [send_from_directory(UPLOAD_FOLDER, name)] *)
Definition send_from_directory (name : string) : M Response :=
  fs ← get_uploads;
  match fs !! name with
  | Some data => ret (SendFile data)
  | None => raise NotFound
  end.

End Uploads.

(** ** werkzeug

    The three werkzeug functions app.py imports.  [generate_password_hash]
    takes the salt it draws as its first argument. *)
Class Werkzeug := mkWerkzeug
  { generate_password_hash : string → string → string;
    check_password_hash : string → string → bool;
    secure_filename : string → string }.

(** ** Routes *)

Section App.

Context `{Werkzeug}.

(** *** Auth routes (lines 111-158) *)

Definition home : M Response := ret index_html.

Definition signup (req : Request) : M Response :=
  match method req with
  | POST =>
      email ← form_item req "email";
      d ← get_db;
      match head (User_by_email d email) with
      | Some _ => flash "Email already exists";; redirect ep_signup
      | None =>
          name ← form_item req "name";
          email ← form_item req "email";
          password ← form_item req "password";
          role ← form_item req "role";
          add_User name email (generate_password_hash (salt req) password) role;;
          flash "Account created. Please login.";;
          redirect ep_login
      end
  | GET => ret signup_html
  end.

(** [not user or not check_password_hash(...)]: the password field is
    only read when a user was found. *)
Definition login (req : Request) : M Response :=
  match method req with
  | POST =>
      email ← form_item req "email";
      d ← get_db;
      match head (User_by_email d email) with
      | None => flash "Invalid credentials";; redirect ep_login
      | Some user =>
          password ← form_item req "password";
          if negb (check_password_hash (User.password user) password)
          then flash "Invalid credentials";; redirect ep_login
          else
            s ← get_session;
            put_session (mkSession (Some (User.id user))
                                   (Some (User.name user))
                                   (Some (User.role user)) (flashes s));;
            redirect ep_dashboard
      end
  | GET => ret login_html
  end.

Definition logout : M Response :=
  put_session (mkSession None None None []);;
  redirect ep_home.

(** *** Dashboard (lines 164-172) *)

Definition dashboard : M Response :=
  login_required (
    role ← session_user_role;
    if decide (role = "student") then
      uid ← session_user_id;
      d ← get_db;
      let enrollments := Enrollment_by_student d uid in
      ret (student_dashboard_html (Enrollment_course d <$> enrollments))
    else ret teacher_dashboard_html).

(** *** Courses (lines 178-230) *)

Definition teacher_courses : M Response :=
  teacher_required (
    uid ← session_user_id;
    d ← get_db;
    ret (teacher_courses_html (Course_by_teacher d uid))).

Definition create_course (req : Request) : M Response :=
  teacher_required (
    match method req with
    | POST =>
        title ← form_item req "title";
        description ← form_item req "description";
        uid ← session_user_id;
        add_Course title description uid;;
        redirect ep_teacher_courses
    | GET => ret create_course_html
    end).

Definition edit_course (course_id : Z) (req : Request) : M Response :=
  teacher_required (
    d ← get_db;
    course ← get_or_404 (Course_get d course_id);
    uid ← session_user_id;
    if decide (Course.teacher_id course ≠ uid) then
      flash "Not allowed";;
      redirect ep_teacher_courses
    else
      match method req with
      | POST =>
          title ← form_item req "title";
          description ← form_item req "description";
          update_Course course title description;;
          redirect ep_teacher_courses
      | GET => ret (edit_course_html course)
      end).

Definition delete_course (course_id : Z) : M Response :=
  teacher_required (
    d ← get_db;
    course ← get_or_404 (Course_get d course_id);
    uid ← session_user_id;
    if decide (Course.teacher_id course ≠ uid) then
      flash "Not allowed";;
      redirect ep_teacher_courses
    else
      delete_Course course;;
      redirect ep_teacher_courses).

(** *** Enrollment (lines 236-290) *)

Definition all_courses : M Response :=
  login_required (
    role ← session_user_role;
    if decide (role ≠ "student") then redirect ep_dashboard
    else
      d ← get_db;
      uid ← session_user_id;
      let enrollments := Enrollment_by_student d uid in
      let enrolled_ids := Enrollment.course_id <$> enrollments in
      ret (all_courses_html (courses d) enrolled_ids)).

Definition enroll (course_id : Z) : M Response :=
  login_required (
    role ← session_user_role;
    if decide (role ≠ "student") then redirect ep_dashboard
    else
      uid ← session_user_id;
      d ← get_db;
      match head (Enrollment_by_pair d uid course_id) with
      | Some _ => redirect ep_all_courses
      | None =>
          add_Enrollment uid course_id;;
          redirect ep_all_courses
      end).

(** [filter_by(student_id=session.get("user_id"), ...)]: a missing
    session key compares with NULL and matches no row. *)
Definition unenroll (course_id : Z) : M Response :=
  login_required (
    s ← get_session;
    if decide (user_role s ≠ Some "student") then
      flash "Only students can unenroll";;
      redirect ep_dashboard
    else
      d ← get_db;
      let enrollment :=
        match user_id s with
        | Some uid => head (Enrollment_by_pair d uid course_id)
        | None => None
        end in
      match enrollment with
      | None =>
          flash "You are not enrolled in this course";;
          redirect ep_all_courses
      | Some e =>
          delete_Enrollment e;;
          flash "You have unenrolled from the course";;
          redirect ep_all_courses
      end).

(** *** Course details (lines 297-321) *)

Definition course_detail (course_id : Z) : M Response :=
  login_required (
    d ← get_db;
    course ← get_or_404 (Course_get d course_id);
    role ← session_user_role;
    enrolled ←
      (if decide (role = "student") then
         uid ← session_user_id;
         ret (bool_decide
                (is_Some (head (Enrollment_by_pair d uid (Course.id course)))))
       else ret false);
    let students :=
      if decide (role = "teacher")
      then Enrollment_student d <$> Enrollment_by_course d (Course.id course)
      else [] in
    ret (course_detail_html course enrolled students)).

(** *** Lessons (lines 327-397) *)

(** [if file and file.filename]: a FileStorage is true when its filename
    is not empty. *)
Definition add_lesson (course_id : Z) (req : Request) : M Response :=
  teacher_required (
    d ← get_db;
    course ← get_or_404 (Course_get d course_id);
    uid ← session_user_id;
    if decide (Course.teacher_id course ≠ uid) then
      redirect ep_teacher_courses
    else
      match method req with
      | POST =>
          title ← form_item req "title";
          lesson ← add_Lesson title (form_get req "content") (Course.id course);
          match files_file req with
          | Some file =>
              if decide (file_filename file ≠ "") then
                let filename := secure_filename (file_filename file) in
                file_save req filename (file_data file);;
                add_LessonFile req filename (Lesson.id lesson);;
                redirect (ep_course_detail (Course.id course))
              else redirect (ep_course_detail (Course.id course))
          | None => redirect (ep_course_detail (Course.id course))
          end
      | GET => ret (add_lesson_html course)
      end).

(** [lesson.course.teacher_id]: AttributeError when the lesson's course
    is missing. *)
Definition lesson_course (l : Lesson.t) : M Course.t :=
  d ← get_db;
  match Lesson_course d l with
  | Some c => ret c
  | None => raise AttributeError
  end.

Definition edit_lesson (lesson_id : Z) (req : Request) : M Response :=
  teacher_required (
    d ← get_db;
    lesson ← get_or_404 (Lesson_get d lesson_id);
    course ← lesson_course lesson;
    uid ← session_user_id;
    if decide (Course.teacher_id course ≠ uid) then redirect ep_dashboard
    else
      match method req with
      | POST =>
          title ← form_item req "title";
          update_Lesson lesson title (form_get req "content");;
          redirect (ep_course_detail (Course.id course))
      | GET => ret (edit_lesson_html lesson)
      end).

(** The loop of lines 387-390. *)
Fixpoint remove_physical_files (files : list LessonFile.t) : M unit :=
  match files with
  | [] => ret tt
  | file :: rest =>
      b ← os_path_exists (LessonFile.filename file);
      (if b : bool then os_remove (LessonFile.filename file) else ret tt);;
      remove_physical_files rest
  end.

Definition delete_lesson (lesson_id : Z) : M Response :=
  teacher_required (
    d ← get_db;
    lesson ← get_or_404 (Lesson_get d lesson_id);
    course ← lesson_course lesson;
    s ← get_session;
    if decide (Some (Course.teacher_id course) ≠ user_id s) then
      flash "You cannot delete this lesson";;
      redirect ep_dashboard
    else
      let course_id := Course.id course in
      remove_physical_files (Lesson_files d lesson);;
      delete_Lesson lesson;;
      flash "Lesson deleted successfully";;
      redirect (ep_course_detail course_id)).

(** *** File download (lines 404-407) *)

Definition uploaded_file (filename : string) : M Response :=
  login_required (send_from_directory filename).

(** *** Dispatch *)

Inductive Route :=
  | r_home | r_signup | r_login | r_logout | r_dashboard
  | r_teacher_courses | r_create_course
  | r_edit_course (course_id : Z) | r_delete_course (course_id : Z)
  | r_all_courses | r_enroll (course_id : Z) | r_unenroll (course_id : Z)
  | r_course_detail (course_id : Z)
  | r_add_lesson (course_id : Z) | r_edit_lesson (lesson_id : Z)
  | r_delete_lesson (lesson_id : Z)
  | r_uploaded_file (filename : string).

Definition handle (r : Route) (req : Request) : M Response :=
  match r with
  | r_home => home
  | r_signup => signup req
  | r_login => login req
  | r_logout => logout
  | r_dashboard => dashboard
  | r_teacher_courses => teacher_courses
  | r_create_course => create_course req
  | r_edit_course c => edit_course c req
  | r_delete_course c => delete_course c
  | r_all_courses => all_courses
  | r_enroll c => enroll c
  | r_unenroll c => unenroll c
  | r_course_detail c => course_detail c
  | r_add_lesson c => add_lesson c req
  | r_edit_lesson l => edit_lesson l req
  | r_delete_lesson l => delete_lesson l
  | r_uploaded_file f => uploaded_file f
  end.

End App.

(** ** Derived notions *)

(** The world after [flash msg]: only the session's flashes grow. *)
Definition with_flash (msg : string) (w : World) : World :=
  mkWorld (mkSession (user_id (session w)) (user_name (session w))
                     (user_role (session w)) (flashes (session w) ++ [msg]))
          (db w) (uploads w) (journal w).

(** What the client gets back from a request: the response (or the error
    page) and its session cookie. *)
Definition observation {A} (r : (Exn + A) * World) : (Exn + A) * Session :=
  (r.1, session r.2).

(** [listEnrolledCourseIds]: the [enrolled_ids] that [all_courses] computes
    (line 244). *)
Definition enrolled_course_ids (d : DB) (student_id : Z) : list Z :=
  Enrollment.course_id <$> Enrollment_by_student d student_id.

(** A caller is logged in as a teacher / as a student. *)
Definition teacher_session (s : Session) (t : Z) : Prop :=
  user_id s = Some t ∧ t ≠ 0 ∧ user_role s = Some "teacher".

Definition student_session (s : Session) (t : Z) : Prop :=
  user_id s = Some t ∧ t ≠ 0 ∧ user_role s = Some "student".

(** *** Sample data, to run the handlers on *)

(** A stand-in for werkzeug: the hash is the password itself and file names
    are kept, except that ".." is sanitized to the empty name. *)
Definition demo_werkzeug : Werkzeug :=
  mkWerkzeug (λ _ pw, pw) (λ h pw, bool_decide (h = pw))
             (λ n, if decide (n = "..") then "" else n).

Definition alice := User.mk 1 "Alice" "alice@example.org" "pw-a" "teacher".
Definition bob := User.mk 2 "Bob" "bob@example.org" "pw-b" "teacher".
Definition carol := User.mk 3 "Carol" "carol@example.org" "pw-c" "student".

Definition algebra := Course.mk 1 "Algebra" "Groups and rings" 1.

Definition demo_db : DB :=
  mkDB [alice; bob; carol] [algebra]
       [Enrollment.mk 1 3 1]
       [Lesson.mk 1 "Groups" (Some "A group is ...") 1;
        Lesson.mk 2 "Rings" (Some "A ring is ...") 1]
       [LessonFile.mk 1 "notes.pdf" 1; LessonFile.mk 2 "notes.pdf" 2].

Definition demo_uploads : gmap string bytes := {[ "notes.pdf" := [x25; x50] ]}.

Definition session_of (u : User.t) : Session :=
  mkSession (Some (User.id u)) (Some (User.name u)) (Some (User.role u)) [].

Definition anonymous : Session := mkSession None None None [].

Definition demo_world (s : Session) : World :=
  mkWorld s demo_db demo_uploads [].

Definition post (fields : list (string * string)) (f : option FileStorage)
  : Request :=
  mkRequest POST (list_to_map fields) f "salt" false false.

Definition get : Request := mkRequest GET ∅ None "salt" false false.

(** *** Invariants of the store *)

(** At most one Enrollment row per (student, course) pair. *)
Definition enrollments_unique (d : DB) : Prop :=
  ∀ s c, (length (Enrollment_by_pair d s c) ≤ 1)%nat.

(** No stored lesson has a NULL content. *)
Definition lessons_have_content (d : DB) : Prop :=
  ∀ l, l ∈ lessons d → is_Some (Lesson.content l).

Definition store_ok (d : DB) : Prop :=
  enrollments_unique d ∧ lessons_have_content d.

Definition empty_db : DB := mkDB [] [] [] [] [].

(** The worlds the application can be in: it starts on an empty database
    and an empty upload folder, serves one request after the other, and
    between two requests the client, hence the session, may change.  Any
    session is allowed: this covers the sessions that [login] hands out. *)
Inductive reachable `{Werkzeug} : World → Prop :=
  | reachable_init s : reachable (mkWorld s empty_db ∅ [])
  | reachable_request w r req :
      reachable w → reachable (handle r req w).2
  | reachable_client w s :
      reachable w → reachable (mkWorld s (db w) (uploads w) (journal w)).

(** A computation that never writes to the database, and one that keeps a
    property of the database. *)
Definition db_silent {A} (m : M A) : Prop := ∀ w, db (m w).2 = db w.

Definition db_inv {A} (Q : DB → Prop) (m : M A) : Prop :=
  ∀ w, Q (db w) → Q (db (m w).2).

(** *** Serving a sequence of requests *)

(** Each request comes with the session of its client. *)
Fixpoint serve `{Werkzeug} (script : list (Session * Route * Request))
    (w : World) : World :=
  match script with
  | [] => w
  | (s, r, req) :: rest =>
      serve rest (handle r req (mkWorld s (db w) (uploads w) (journal w))).2
  end.

(** The requests that build the sample store from nothing: three signups,
    Alice's course and her two lessons, both with a file called notes.pdf,
    and Carol's enrollment. *)
Definition demo_script : list (Session * Route * Request) :=
  [ (anonymous, r_signup,
     post [("name", "Alice"); ("email", "alice@example.org");
           ("password", "pw-a"); ("role", "teacher")] None);
    (anonymous, r_signup,
     post [("name", "Bob"); ("email", "bob@example.org");
           ("password", "pw-b"); ("role", "teacher")] None);
    (anonymous, r_signup,
     post [("name", "Carol"); ("email", "carol@example.org");
           ("password", "pw-c"); ("role", "student")] None);
    (session_of alice, r_create_course,
     post [("title", "Algebra"); ("description", "Groups and rings")] None);
    (session_of alice, r_add_lesson 1,
     post [("title", "Groups"); ("content", "A group is ...")]
          (Some (mkFile "notes.pdf" [x25; x50])));
    (session_of alice, r_add_lesson 1,
     post [("title", "Rings"); ("content", "A ring is ...")]
          (Some (mkFile "notes.pdf" [x25; x50])));
    (session_of carol, r_enroll 1, get) ].

(** *** The effect of the clean-up loop of [delete_lesson] *)

(** The names that the loop hands to [os.remove], in order: those of the
    files that are in the folder when their turn comes. *)
Fixpoint removed_names (fs : gmap string bytes) (files : list LessonFile.t)
  : list string :=
  match files with
  | [] => []
  | file :: rest =>
      match fs !! LessonFile.filename file with
      | Some _ =>
          LessonFile.filename file
            :: removed_names (delete (LessonFile.filename file) fs) rest
      | None => removed_names fs rest
      end
  end.

(** The folder without the bytes of the given LessonFile rows. *)
Definition without_files (fs : gmap string bytes) (files : list LessonFile.t)
  : gmap string bytes :=
  foldl (λ fs file, delete (LessonFile.filename file) fs) fs files.

(** *** The first commit of [add_lesson] *)

(** The row that [add_lesson] commits first, and the world right after
    that commit. *)
Definition new_lesson (title content : string) (course_id : Z) (w : World)
  : Lesson.t :=
  Lesson.mk (next_id (Lesson.id <$> lessons (db w))) title (Some content)
            course_id.

Definition with_lesson (l : Lesson.t) (w : World) : World :=
  mkWorld (session w)
          (mkDB (users (db w)) (courses (db w)) (enrollments (db w))
                (lessons (db w) ++ [l]) (lesson_files (db w)))
          (uploads w) (journal w ++ [SqlInsert t_lesson (Lesson.id l)]).

(** *** The roster rule of the specification *)


(** *** Which routes the decorators guard *)



(** The world with another session. *)
Definition with_session (s : Session) (w : World) : World :=
  mkWorld s (db w) (uploads w) (journal w).

(** *** Signing up *)

(** The row that a successful [signup] stores. *)
Definition new_user `{Werkzeug} (name email password role salt : string)
    (w : World) : User.t :=
  User.mk (next_id (User.id <$> users (db w))) name email
          (generate_password_hash salt password) role.

(** No two users share an email. *)
Definition emails_unique (d : DB) : Prop := NoDup (User.email <$> users d).

(** *** Primary keys and references *)

(** The ids of a table are pairwise different and positive. *)
Definition keys_ok_in (ids : list Z) : Prop :=
  NoDup ids ∧ ∀ i, i ∈ ids → 0 < i.

Definition keys_ok (d : DB) : Prop :=
  keys_ok_in (User.id <$> users d)
  ∧ keys_ok_in (Course.id <$> courses d)
  ∧ keys_ok_in (Enrollment.id <$> enrollments d)
  ∧ keys_ok_in (Lesson.id <$> lessons d)
  ∧ keys_ok_in (LessonFile.id <$> lesson_files d).

(** Every lesson belongs to a course of the table and every LessonFile
    row to a lesson of the table. *)
Definition lessons_have_course (d : DB) : Prop :=
  ∀ l, l ∈ lessons d → Lesson.course_id l ∈ Course.id <$> courses d.

Definition files_have_lesson (d : DB) : Prop :=
  ∀ f, f ∈ lesson_files d → LessonFile.lesson_id f ∈ Lesson.id <$> lessons d.

Definition refs_ok (d : DB) : Prop :=
  lessons_have_course d ∧ files_have_lesson d.

(** *** Creating a course *)

(** The row that [create_course] stores for teacher [t]. *)
Definition new_course (title description : string) (t : Z) (w : World)
  : Course.t :=
  Course.mk (next_id (Course.id <$> courses (db w))) title description t.

Definition with_course (c : Course.t) (w : World) : World :=
  mkWorld (session w)
          (mkDB (users (db w)) (courses (db w) ++ [c]) (enrollments (db w))
                (lessons (db w)) (lesson_files (db w)))
          (uploads w) (journal w ++ [SqlInsert t_course (Course.id c)]).

(** *** What a request leaves alone *)

(** The part of the world outside the session, and the identity that a
    session carries. *)
Definition store (w : World) : DB * gmap string bytes * list Effect :=
  (db w, uploads w, journal w).

Definition identity (w : World) : option Z * option string * option string :=
  (user_id (session w), user_name (session w), user_role (session w)).

(** A computation that leaves the projection [π] of the world as it is. *)
Definition keeps {X A} (π : World → X) (m : M A) : Prop :=
  ∀ w, π (m w).2 = π w.

(** The requests that only read: the routes without a write in their
    body, and the GET side of the form routes. *)
Definition reads_only (r : Route) (req : Request) : bool :=
  match r with
  | r_home | r_dashboard | r_teacher_courses | r_all_courses
  | r_course_detail _ | r_uploaded_file _ => true
  | r_signup | r_login | r_create_course | r_edit_course _ | r_add_lesson _
  | r_edit_lesson _ =>
      match method req with GET => true | POST => false end
  | _ => false
  end.

(** The routes that write the identity into the session or wipe it. *)
Definition changes_identity (r : Route) : bool :=
  match r with
  | r_login | r_logout => true
  | _ => false
  end.

(** ** Proof support *)

Ltac run :=
  cbv beta iota delta
    [mbind M_bind bind ret raise get_session get_db get_uploads put_session
     put_db put_uploads emit flash redirect get_or_404 session_user_id
     session_user_role form_item form_get];
  simpl.

Lemma login_required_pass (f : M Response) w t :
  user_id (session w) = Some t → t ≠ 0 → login_required f w = f w.
Proof.
  intros Hu Ht. unfold login_required. run. rewrite Hu. simpl.
  by destruct (Z.eqb_spec t 0).
Qed.

Lemma teacher_required_pass (f : M Response) w t :
  teacher_session (session w) t → teacher_required f w = f w.
Proof.
  intros (Hu & Ht & Hr). unfold teacher_required. run. rewrite Hu, Hr. simpl.
  by destruct (Z.eqb_spec t 0).
Qed.

(** ** Ownership checks of the course routes *)

Lemma edit_course_forbidden w t course_id c req :
  teacher_session (session w) t →
  Course_get (db w) course_id = Some c → Course.teacher_id c ≠ t →
  edit_course course_id req w
  = (inr (RedirectTo ep_teacher_courses), with_flash "Not allowed" w).
Proof.
  intros Hs Hc Hne. unfold edit_course.
  rewrite (teacher_required_pass _ w t) by done.
  destruct Hs as (Hu & _ & _). run. rewrite Hc. simpl. rewrite Hu. simpl.
  by case_decide.
Qed.

Lemma delete_course_forbidden w t course_id c :
  teacher_session (session w) t →
  Course_get (db w) course_id = Some c → Course.teacher_id c ≠ t →
  delete_course course_id w
  = (inr (RedirectTo ep_teacher_courses), with_flash "Not allowed" w).
Proof.
  intros Hs Hc Hne. unfold delete_course.
  rewrite (teacher_required_pass _ w t) by done.
  destruct Hs as (Hu & _ & _). run. rewrite Hc. simpl. rewrite Hu. simpl.
  by case_decide.
Qed.

Lemma edit_course_not_found w t course_id req :
  teacher_session (session w) t → Course_get (db w) course_id = None →
  edit_course course_id req w = (inl NotFound, w).
Proof.
  intros Hs Hc. unfold edit_course.
  rewrite (teacher_required_pass _ w t) by done.
  run. by rewrite Hc.
Qed.

Lemma delete_course_not_found w t course_id :
  teacher_session (session w) t → Course_get (db w) course_id = None →
  delete_course course_id w = (inl NotFound, w).
Proof.
  intros Hs Hc. unfold delete_course.
  rewrite (teacher_required_pass _ w t) by done.
  run. by rewrite Hc.
Qed.

(** C5.  A teacher [t] who does not own course [c] cannot change it: both
    [edit_course] (whatever the method and the form) and [delete_course]
    answer with the flash "Not allowed" and the redirect to the teacher's
    course list, which is how app.py renders Forbidden; the database, the
    upload folder and the journal are left as they were, so the course is
    unchanged.  On a course id that is not in the table both routes abort
    with 404 (NotFound) and change nothing at all. *)
Theorem course_routes_forbidden_and_not_found w t course_id req :
  teacher_session (session w) t →
  (∀ c, Course_get (db w) course_id = Some c → Course.teacher_id c ≠ t →
        edit_course course_id req w
        = (inr (RedirectTo ep_teacher_courses), with_flash "Not allowed" w)
        ∧ delete_course course_id w
          = (inr (RedirectTo ep_teacher_courses), with_flash "Not allowed" w)
        ∧ db (with_flash "Not allowed" w) = db w
        ∧ Course_get (db (with_flash "Not allowed" w)) course_id = Some c)
  ∧ (Course_get (db w) course_id = None →
     edit_course course_id req w = (inl NotFound, w)
     ∧ delete_course course_id w = (inl NotFound, w)).
Proof.
  intros Hs. split.
  - intros c Hc Hne. repeat split; eauto using edit_course_forbidden,
      delete_course_forbidden.
  - intros Hc. eauto using edit_course_not_found, delete_course_not_found.
Qed.

Lemma course_routes_forbidden_and_not_found_witness :
  teacher_session (session (demo_world (session_of bob))) 2
  ∧ edit_course 1 (post [("title", "X"); ("description", "Y")] None)
                (demo_world (session_of bob))
    = (inr (RedirectTo ep_teacher_courses),
       with_flash "Not allowed" (demo_world (session_of bob)))
  ∧ delete_course 7 (demo_world (session_of bob))
    = (inl NotFound, demo_world (session_of bob)).
Proof.
  assert (Hs : teacher_session (session (demo_world (session_of bob))) 2)
    by (repeat split; done).
  split; [exact Hs|].
  destruct (course_routes_forbidden_and_not_found
              (demo_world (session_of bob)) 2 1
              (post [("title", "X"); ("description", "Y")] None) Hs)
    as [Hforbidden _].
  destruct (course_routes_forbidden_and_not_found
              (demo_world (session_of bob)) 2 7 get Hs) as [_ Hmissing].
  split.
  - apply (Hforbidden algebra); [reflexivity | done].
  - apply Hmissing. reflexivity.
Defined.

(** ** Login *)

Section Login.

Context `{Werkzeug}.

Lemma login_unknown_email w req email :
  method req = POST → form req !! "email" = Some email →
  head (User_by_email (db w) email) = None →
  login req w = (inr (RedirectTo ep_login), with_flash "Invalid credentials" w).
Proof.
  intros Hm He Hu. unfold login. rewrite Hm. run. rewrite He. simpl.
  by rewrite Hu.
Qed.

Lemma login_wrong_password w req email password user :
  method req = POST → form req !! "email" = Some email →
  form req !! "password" = Some password →
  head (User_by_email (db w) email) = Some user →
  check_password_hash (User.password user) password = false →
  login req w = (inr (RedirectTo ep_login), with_flash "Invalid credentials" w).
Proof.
  intros Hm He Hp Hu Hc. unfold login. rewrite Hm. run. rewrite He. simpl.
  rewrite Hu, Hp. simpl. by rewrite Hc.
Qed.

(** C8.  A login that fails because the email is unknown and a login that
    fails because the password does not verify are answered alike: the
    flash "Invalid credentials" and the redirect to the login page, with the
    session otherwise as it was and the store untouched.  So two such runs
    that start from the same session give the client the same response and
    the same session cookie. *)
Theorem login_failure_uniform w1 w2 req1 req2 email1 password1 email2 password2
    user :
  method req1 = POST → form req1 !! "email" = Some email1 →
  form req1 !! "password" = Some password1 →
  method req2 = POST → form req2 !! "email" = Some email2 →
  form req2 !! "password" = Some password2 →
  head (User_by_email (db w1) email1) = None →
  head (User_by_email (db w2) email2) = Some user →
  check_password_hash (User.password user) password2 = false →
  login req1 w1
  = (inr (RedirectTo ep_login), with_flash "Invalid credentials" w1)
  ∧ login req2 w2
    = (inr (RedirectTo ep_login), with_flash "Invalid credentials" w2)
  ∧ (session w1 = session w2 →
     observation (login req1 w1) = observation (login req2 w2)).
Proof.
  intros Hm1 He1 Hp1 Hm2 He2 Hp2 Hu1 Hu2 Hc.
  rewrite (login_unknown_email w1 req1 email1) by done.
  rewrite (login_wrong_password w2 req2 email2 password2 user) by done.
  repeat split. intros Hs. unfold observation, with_flash. simpl.
  by rewrite Hs.
Qed.

End Login.

Lemma login_failure_uniform_witness :
  login (H := demo_werkzeug)
        (post [("email", "nobody@example.org"); ("password", "pw-a")] None)
        (demo_world anonymous)
  = (inr (RedirectTo ep_login),
     with_flash "Invalid credentials" (demo_world anonymous))
  ∧ observation
      (login (H := demo_werkzeug)
         (post [("email", "nobody@example.org"); ("password", "pw-a")] None)
         (demo_world anonymous))
    = observation
        (login (H := demo_werkzeug)
           (post [("email", "alice@example.org"); ("password", "pw-b")] None)
           (demo_world anonymous)).
Proof.
  destruct (login_failure_uniform (H := demo_werkzeug)
              (demo_world anonymous) (demo_world anonymous)
              (post [("email", "nobody@example.org"); ("password", "pw-a")] None)
              (post [("email", "alice@example.org"); ("password", "pw-b")] None)
              "nobody@example.org" "pw-a" "alice@example.org" "pw-b" alice)
    as (H1 & _ & H3); try reflexivity.
  split; [exact H1 | apply H3; reflexivity].
Defined.

(** ** Course detail *)

Lemma Course_get_id d i c : Course_get d i = Some c → Course.id c = i.
Proof.
  unfold Course_get. intros Hc. apply head_Some_elem_of in Hc.
  by apply list_elem_of_filter in Hc as [? _].
Qed.

(** Bob teaches, but not Algebra; he is shown Carol all the same. *)
Lemma course_detail_shows_roster_to_other_teacher :
  course_detail 1 (demo_world (session_of bob))
  = (inr (course_detail_html algebra false [Some carol]),
     demo_world (session_of bob)).
Proof. reflexivity. Qed.




(** ** Invariants *)

Section Invariants.

Context {A B : Type}.

Lemma db_silent_ret (a : A) : db_silent (ret a).
Proof. done. Qed.

Lemma db_silent_raise e : db_silent (raise (A := A) e).
Proof. done. Qed.

Lemma db_silent_bind (m : M A) (k : A → M B) :
  db_silent m → (∀ a, db_silent (k a)) → db_silent (m ≫= k).
Proof.
  intros Hm Hk w. unfold mbind, M_bind, bind. specialize (Hm w).
  destruct (m w) as [[e|a] w']; simpl in *; [done|].
  by rewrite Hk.
Qed.

Lemma db_silent_inv Q (m : M A) : db_silent m → db_inv Q m.
Proof. intros Hm w HQ. by rewrite Hm. Qed.

Lemma db_inv_bind Q (m : M A) (k : A → M B) :
  db_inv Q m → (∀ a, db_inv Q (k a)) → db_inv Q (m ≫= k).
Proof.
  intros Hm Hk w HQ. unfold mbind, M_bind, bind. specialize (Hm w HQ).
  destruct (m w) as [[e|a] w']; simpl in *; [done|].
  by apply Hk.
Qed.

End Invariants.

Lemma db_silent_get_session : db_silent get_session.
Proof. done. Qed.
Lemma db_silent_get_db : db_silent get_db.
Proof. done. Qed.
Lemma db_silent_get_uploads : db_silent get_uploads.
Proof. done. Qed.
Lemma db_silent_put_session s : db_silent (put_session s).
Proof. done. Qed.
Lemma db_silent_put_uploads u : db_silent (put_uploads u).
Proof. done. Qed.
Lemma db_silent_emit es : db_silent (emit es).
Proof. done. Qed.
Lemma db_silent_flash msg : db_silent (flash msg).
Proof. done. Qed.
Lemma db_silent_redirect e : db_silent (redirect e).
Proof. done. Qed.
Lemma db_silent_form_item req key : db_silent (form_item req key).
Proof. unfold form_item. by case_match. Qed.
Lemma db_silent_get_or_404 {A} (o : option A) : db_silent (get_or_404 o).
Proof. by destruct o. Qed.

Create HintDb lms.

#[local] Hint Resolve db_silent_ret db_silent_raise db_silent_get_session
  db_silent_get_db db_silent_get_uploads db_silent_put_session
  db_silent_put_uploads db_silent_emit db_silent_flash db_silent_redirect
  db_silent_form_item db_silent_get_or_404 : lms.

(** Splits a goal [db_silent m] or [db_inv Q m] along the binds and the
    case distinctions of [m]. *)
Ltac split_m :=
  repeat first
    [ solve [eauto 3 using db_silent_inv with lms]
    | apply db_silent_bind; [|intros ?]
    | apply db_inv_bind; [|intros ?]
    | case_match
    | case_decide ].

Ltac silent := split_m; eauto using db_silent_inv with lms.

Lemma db_silent_session_user_id : db_silent session_user_id.
Proof. unfold session_user_id. silent. Qed.
Lemma db_silent_session_user_role : db_silent session_user_role.
Proof. unfold session_user_role. silent. Qed.
Lemma db_silent_os_path_exists n : db_silent (os_path_exists n).
Proof. unfold os_path_exists. silent. Qed.
Lemma db_silent_os_remove n : db_silent (os_remove n).
Proof. unfold os_remove. silent. Qed.
Lemma db_silent_file_save req n data : db_silent (file_save req n data).
Proof. unfold file_save. silent. Qed.
Lemma db_silent_send_from_directory n : db_silent (send_from_directory n).
Proof. unfold send_from_directory. silent. Qed.

#[local] Hint Resolve db_silent_session_user_id db_silent_session_user_role
  db_silent_os_path_exists db_silent_os_remove db_silent_file_save
  db_silent_send_from_directory : lms.

Lemma db_silent_remove_physical_files files :
  db_silent (remove_physical_files files).
Proof. induction files; simpl; silent. Qed.

#[local] Hint Resolve db_silent_remove_physical_files : lms.

Lemma db_inv_login_required Q f : db_inv Q f → db_inv Q (login_required f).
Proof. intros Hf. unfold login_required. silent. Qed.

Lemma db_inv_teacher_required Q f : db_inv Q f → db_inv Q (teacher_required f).
Proof. intros Hf. unfold teacher_required. silent. Qed.

Lemma store_ok_ext d d' :
  enrollments d' = enrollments d → lessons d' = lessons d →
  store_ok d → store_ok d'.
Proof.
  intros He Hl [Hu Hc]. split.
  - intros s c. specialize (Hu s c). unfold Enrollment_by_pair in *.
    by rewrite He.
  - intros l. rewrite Hl. apply Hc.
Qed.

Lemma db_inv_add_User name email password role :
  db_inv store_ok (add_User name email password role).
Proof.
  intros w Hok. unfold add_User. run. case_decide; [done|].
  by apply (store_ok_ext (db w)).
Qed.

Lemma db_inv_add_Course title description teacher_id :
  db_inv store_ok (add_Course title description teacher_id).
Proof. intros w Hok. by apply (store_ok_ext (db w)). Qed.

Lemma db_inv_add_LessonFile req filename lesson_id :
  db_inv store_ok (add_LessonFile req filename lesson_id).
Proof.
  intros w Hok. unfold add_LessonFile. run. case_match; [done|].
  by apply (store_ok_ext (db w)).
Qed.

Lemma db_inv_update_Course c title description :
  db_inv store_ok (update_Course c title description).
Proof.
  intros w Hok. unfold update_Course. run. case_decide; [done|].
  by apply (store_ok_ext (db w)).
Qed.

Lemma db_inv_delete_Course c : db_inv store_ok (delete_Course c).
Proof.
  intros w Hok. unfold delete_Course. run.
  repeat case_match; try done; by apply (store_ok_ext (db w)).
Qed.

Lemma db_inv_add_Lesson title content course_id :
  db_inv store_ok (add_Lesson title content course_id).
Proof.
  intros w [Hu Hc]. unfold add_Lesson. run.
  destruct content as [text|]; [|done]. split; [done|].
  intros l [Hl | ->%list_elem_of_singleton]%elem_of_app; [by apply Hc|].
  by eexists.
Qed.

Lemma db_inv_update_Lesson l title content :
  db_inv store_ok (update_Lesson l title content).
Proof.
  intros w [Hu Hc]. unfold update_Lesson. run. case_decide; [done|].
  destruct content as [text|]; [|done]. split; [done|].
  intros l' (x & -> & Hx)%list_elem_of_fmap. simpl.
  case_decide; [by eexists | by apply Hc].
Qed.

Lemma db_inv_delete_Lesson l : db_inv store_ok (delete_Lesson l).
Proof.
  intros w [Hu Hc]. split; [done|].
  intros l' [_ Hl]%list_elem_of_filter. by apply Hc.
Qed.

Lemma length_filter_filter {A} (P Q : A → Prop) `{!∀ x, Decision (P x)}
    `{!∀ x, Decision (Q x)} (l : list A) :
  (length (filter P (filter Q l)) ≤ length (filter P l))%nat.
Proof.
  induction l as [|x l IH]; [done|].
  rewrite !filter_cons. destruct (decide (Q x)), (decide (P x)); simpl;
    rewrite ?filter_cons; repeat case_decide; simpl; try done; lia.
Qed.

Lemma db_inv_delete_Enrollment e : db_inv store_ok (delete_Enrollment e).
Proof.
  intros w [Hu Hc]. split; [|done].
  intros s c. specialize (Hu s c). unfold Enrollment_by_pair in *. simpl.
  etrans; [apply length_filter_filter|done].
Qed.

Lemma db_inv_add_Enrollment student_id course_id w :
  store_ok (db w) → Enrollment_by_pair (db w) student_id course_id = [] →
  store_ok (db (add_Enrollment student_id course_id w).2).
Proof.
  intros [Hu Hc] Hnew. split; [|done].
  intros s c. specialize (Hu s c). unfold Enrollment_by_pair in *. simpl.
  rewrite filter_app, length_app. rewrite filter_cons, filter_nil. simpl.
  case_decide as Hsc; simpl; [|lia].
  destruct Hsc as [<- <-]. rewrite Hnew. simpl. lia.
Qed.

#[local] Hint Resolve db_inv_add_User db_inv_add_Course db_inv_add_LessonFile
  db_inv_update_Course db_inv_delete_Course db_inv_add_Lesson
  db_inv_update_Lesson db_inv_delete_Lesson db_inv_delete_Enrollment : lms.

(** The same for a whole route, under its decorator. *)
Ltac split_route :=
  repeat first
    [ solve [eauto 3 using db_silent_inv with lms]
    | apply db_inv_login_required
    | apply db_inv_teacher_required
    | apply db_inv_bind; [|intros ?]
    | case_match
    | case_decide ].

(** ** Enrollment *)

Lemma enroll_existing w s course_id :
  student_session (session w) s →
  Enrollment_by_pair (db w) s course_id ≠ [] →
  enroll course_id w = (inr (RedirectTo ep_all_courses), w).
Proof.
  intros (Hu & Ht & Hr) He. unfold enroll.
  rewrite (login_required_pass _ w s) by done.
  run. rewrite Hr. simpl. rewrite Hu. simpl.
  by destruct (Enrollment_by_pair (db w) s course_id).
Qed.

Lemma enroll_new w s course_id :
  student_session (session w) s →
  Enrollment_by_pair (db w) s course_id = [] →
  enroll course_id w
  = (inr (RedirectTo ep_all_courses), (add_Enrollment s course_id w).2).
Proof.
  intros (Hu & Ht & Hr) He. unfold enroll.
  rewrite (login_required_pass _ w s) by done.
  run. rewrite Hr. simpl. rewrite Hu. simpl. by rewrite He.
Qed.

Lemma Enrollment_by_pair_added w s course_id :
  Enrollment_by_pair (db (add_Enrollment s course_id w).2) s course_id
  = (Enrollment_by_pair (db w) s course_id
       ++ [Enrollment.mk (next_id (Enrollment.id <$> enrollments (db w)))
                         s course_id])%list.
Proof.
  unfold Enrollment_by_pair. simpl. rewrite filter_app. f_equal.
  rewrite filter_cons_True by done. done.
Qed.

Lemma db_inv_enroll course_id : db_inv store_ok (enroll course_id).
Proof.
  intros w Hok. unfold enroll, login_required. run.
  destruct (truthy_id (user_id (session w))); simpl; [|done].
  destruct (user_role (session w)) as [role|]; simpl; [|done].
  case_decide; simpl; [done|].
  destruct (user_id (session w)) as [uid|]; simpl; [|done].
  destruct (head _) as [e|] eqn:He; simpl; [done|].
  apply head_None in He. by apply (db_inv_add_Enrollment uid course_id w).
Qed.

Section Reachable.

Context `{Werkzeug}.

Lemma db_inv_handle r req : db_inv store_ok (handle r req).
Proof.
  destruct r; simpl; try apply db_inv_enroll;
    unfold home, signup, login, logout, dashboard, teacher_courses,
      create_course, edit_course, delete_course, all_courses, unenroll,
      course_detail, add_lesson, edit_lesson, lesson_course, delete_lesson,
      uploaded_file;
    split_route.
Qed.

(** Every reachable store has at most one Enrollment row per pair and no
    lesson without content. *)
Lemma reachable_store_ok w : reachable w → store_ok (db w).
Proof.
  induction 1 as [s | w r req _ IH | w s _ IH]; simpl.
  - split; [intros s' c; simpl; lia | by intros l ?%elem_of_nil].
  - by apply db_inv_handle.
  - done.
Qed.

Lemma serve_reachable script w : reachable w → reachable (serve script w).
Proof.
  revert w. induction script as [|[[s r] req] rest IH]; intros w Hw; [done|].
  simpl. apply IH. by apply reachable_request, reachable_client.
Qed.

(** C4.  In every reachable world, a student who calls [enroll] twice for
    the same course is redirected to the course list both times, the second
    call leaves the world exactly as the first one left it, and afterwards
    there is exactly one Enrollment row for the pair. *)
Theorem enroll_idempotent w s course_id :
  reachable w → student_session (session w) s →
  let w1 := (enroll course_id w).2 in
  (enroll course_id w).1 = inr (RedirectTo ep_all_courses)
  ∧ enroll course_id w1 = (inr (RedirectTo ep_all_courses), w1)
  ∧ length (Enrollment_by_pair (db w1) s course_id) = 1%nat
  ∧ length (Enrollment_by_pair (db (enroll course_id w1).2) s course_id)
    = 1%nat.
Proof.
  intros [Hu _]%reachable_store_ok Hs.
  assert (∀ w', student_session (session w') s →
            length (Enrollment_by_pair (db w') s course_id) = 1%nat →
            enroll course_id w' = (inr (RedirectTo ep_all_courses), w'))
    as Hagain.
  { intros w' Hs' Hlen. apply (enroll_existing w' s); [done|].
    intros Hnil. by rewrite Hnil in Hlen. }
  destruct (Enrollment_by_pair (db w) s course_id) as [|e es] eqn:He.
  - rewrite (enroll_new w s) by done. simpl.
    assert (length (Enrollment_by_pair
                      (db (add_Enrollment s course_id w).2) s course_id)
            = 1%nat) as Hlen
      by (by rewrite Enrollment_by_pair_added, He).
    rewrite Hagain by done. done.
  - assert (length (Enrollment_by_pair (db w) s course_id) = 1%nat) as Hlen.
    { specialize (Hu s course_id). rewrite He in *. simpl in *. lia. }
    rewrite Hagain by done. simpl. rewrite Hagain by done. done.
Qed.

End Reachable.

(** The sample store is one the application reaches. *)
Lemma demo_store_reachable :
  let w := serve (H := demo_werkzeug) demo_script
                 (mkWorld anonymous empty_db ∅ []) in
  reachable (H := demo_werkzeug) w
  ∧ db w = demo_db ∧ uploads w = demo_uploads.
Proof.
  split; [apply serve_reachable, reachable_init|].
  split; reflexivity.
Qed.

Lemma enroll_idempotent_witness :
  reachable (H := demo_werkzeug) (mkWorld (session_of carol) empty_db ∅ [])
  ∧ enroll 1 (enroll 1 (mkWorld (session_of carol) empty_db ∅ [])).2
    = (inr (RedirectTo ep_all_courses),
       mkWorld (session_of carol)
               (mkDB [] [] [Enrollment.mk 1 3 1] [] []) ∅
               [SqlInsert t_enrollment 1]).
Proof.
  split; [apply reachable_init|].
  apply (enroll_idempotent (H := demo_werkzeug)
           (mkWorld (session_of carol) empty_db ∅ []) 3 1).
  - apply reachable_init.
  - repeat split; done.
Defined.

(** C7 (the code departs from the claim).  [enroll] never looks at the
    course table.  Carol enrolls in course 7 while the only course is
    course 1: she is redirected to the course list like after any other
    enrollment, no 404 is raised, and a second Enrollment row, for the pair
    (3, 7), is in the table. *)
Theorem enroll_missing_course_inserts :
  Course_get demo_db 7 = None
  ∧ enroll 7 (demo_world (session_of carol))
    = (inr (RedirectTo ep_all_courses),
       mkWorld (session_of carol)
         (mkDB (users demo_db) (courses demo_db)
               [Enrollment.mk 1 3 1; Enrollment.mk 2 3 7]
               (lessons demo_db) (lesson_files demo_db))
         demo_uploads [SqlInsert t_enrollment 2])
  ∧ enrolled_course_ids (db (enroll 7 (demo_world (session_of carol))).2) 3
    = [1; 7].
Proof. repeat split. Qed.

(** ** Lessons *)

Section Lessons.

Context `{Werkzeug}.

(** What the owner's POST to [add_lesson] does, once the decorator, the
    lookup of the course and the ownership check are passed. *)
Lemma add_lesson_owner_post w t course_id course req title :
  teacher_session (session w) t →
  Course_get (db w) course_id = Some course → Course.teacher_id course = t →
  method req = POST → form req !! "title" = Some title →
  add_lesson course_id req w
  = (lesson ← add_Lesson title (form_get req "content") (Course.id course);
     match files_file req with
     | Some file =>
         if decide (file_filename file ≠ "") then
           let filename := secure_filename (file_filename file) in
           file_save req filename (file_data file);;
           add_LessonFile req filename (Lesson.id lesson);;
           redirect (ep_course_detail (Course.id course))
         else redirect (ep_course_detail (Course.id course))
     | None => redirect (ep_course_detail (Course.id course))
     end) w.
Proof.
  intros Hs Hc Ho Hm Ht. unfold add_lesson.
  rewrite (teacher_required_pass _ w t) by done.
  destruct Hs as (Hu & _ & _).
  cbv beta iota delta [mbind M_bind bind get_db get_or_404 session_user_id
    get_session form_item ret]. simpl.
  rewrite Hc. simpl. rewrite Hu. simpl.
  case_decide; [done|]. by rewrite Hm, Ht.
Qed.

Lemma add_lesson_without_content w t course_id course req title :
  teacher_session (session w) t →
  Course_get (db w) course_id = Some course → Course.teacher_id course = t →
  method req = POST → form req !! "title" = Some title →
  form req !! "content" = None →
  add_lesson course_id req w = (inl IntegrityError, w).
Proof.
  intros Hs Hc Ho Hm Ht Hn.
  rewrite (add_lesson_owner_post w t course_id course req title) by done.
  run. by rewrite Hn.
Qed.

End Lessons.

(** C3 (the code departs from the claim).  Alice posts a lesson for her
    course with a title and a file but without the content field.
    [request.form.get("content")] is then [None], the column is
    [nullable=False], and the commit fails: the answer is a 500, no Lesson
    row is stored and the file is not saved.  With an empty text instead,
    the lesson is stored. *)
Theorem add_lesson_without_content_fails :
  add_lesson (H := demo_werkzeug) 1
    (post [("title", "Fields")] (Some (mkFile "fields.pdf" [x25])))
    (demo_world (session_of alice))
  = (inl IntegrityError, demo_world (session_of alice))
  ∧ status (add_lesson (H := demo_werkzeug) 1
              (post [("title", "Fields")] (Some (mkFile "fields.pdf" [x25])))
              (demo_world (session_of alice))).1 = 500
  ∧ (add_lesson (H := demo_werkzeug) 1
       (post [("title", "Fields"); ("content", "")]
             (Some (mkFile "fields.pdf" [x25])))
       (demo_world (session_of alice))).1
    = inr (RedirectTo (ep_course_detail 1)).
Proof. repeat split. Qed.

(** ** Deleting a course *)

Lemma delete_Course_keeps_children c w :
  enrollments (db (delete_Course c w).2) = enrollments (db w)
  ∧ lessons (db (delete_Course c w).2) = lessons (db w)
  ∧ lesson_files (db (delete_Course c w).2) = lesson_files (db w)
  ∧ uploads (delete_Course c w).2 = uploads w.
Proof. unfold delete_Course. run. by repeat case_match. Qed.

(** [delete_course] removes no Lesson, LessonFile or Enrollment row and no
    file of the upload folder, whoever calls it on whatever course. *)
Lemma delete_course_keeps_children course_id w :
  enrollments (db (delete_course course_id w).2) = enrollments (db w)
  ∧ lessons (db (delete_course course_id w).2) = lessons (db w)
  ∧ lesson_files (db (delete_course course_id w).2) = lesson_files (db w)
  ∧ uploads (delete_course course_id w).2 = uploads w.
Proof.
  unfold delete_course, teacher_required.
  cbv beta iota delta [mbind M_bind bind ret raise get_session get_db
    put_session flash redirect get_or_404 session_user_id]. simpl.
  repeat (case_match; simpl; try done); simplify_eq; try done.
  all: match goal with
       | Hd : delete_Course ?c ?w = (_, ?w') |- _ =>
           pose proof (delete_Course_keeps_children c w) as Hk;
           rewrite Hd in Hk; exact Hk
       end.
Qed.

(** The owner's [delete_course] on a course that has a lesson or an
    enrollment: the unit of work fails and nothing is deleted. *)
Lemma delete_course_with_children w t course_id course :
  teacher_session (session w) t →
  Course_get (db w) course_id = Some course → Course.teacher_id course = t →
  Course_lessons (db w) course ≠ []
  ∨ Enrollment_by_course (db w) (Course.id course) ≠ [] →
  delete_course course_id w = (inl IntegrityError, w).
Proof.
  intros Hs Hc Ho Hchildren. unfold delete_course.
  rewrite (teacher_required_pass _ w t) by done.
  destruct Hs as (Hu & _ & _). unfold delete_Course. run.
  rewrite Hc. simpl. rewrite Hu. simpl. case_decide; [done|].
  destruct (Course_lessons (db w) course),
    (Enrollment_by_course (db w) (Course.id course)); try done.
  by destruct Hchildren.
Qed.

(** The owner's [delete_course] on a course without lessons and
    enrollments removes the course row. *)
Lemma delete_course_without_children w t course_id course :
  teacher_session (session w) t →
  Course_get (db w) course_id = Some course → Course.teacher_id course = t →
  Course_lessons (db w) course = [] →
  Enrollment_by_course (db w) (Course.id course) = [] →
  delete_course course_id w
  = (inr (RedirectTo ep_teacher_courses),
     mkWorld (session w)
       (mkDB (users (db w))
             (filter (λ x, Course.id x ≠ course_id) (courses (db w)))
             (enrollments (db w)) (lessons (db w)) (lesson_files (db w)))
       (uploads w) (journal w ++ [SqlDelete t_course course_id])).
Proof.
  intros Hs Hc Ho Hl He. unfold delete_course.
  rewrite (teacher_required_pass _ w t) by done.
  destruct Hs as (Hu & _ & _). unfold delete_Course. run.
  rewrite Hc. simpl. rewrite Hu. simpl. case_decide; [done|].
  rewrite Hl, He. simpl. by rewrite (Course_get_id _ _ _ Hc).
Qed.

(** C1 (the code departs from the claim).  Alice owns Algebra, which has
    two lessons, each with an attached file, and one enrolled student,
    Carol.  Alice's [delete_course] does not cascade: it is answered with a
    500 and the world is as before.  The course, its lessons, their
    LessonFile rows and the stored bytes are all still there, and Carol's
    enrolled course ids still contain the course. *)
Theorem delete_course_does_not_cascade :
  delete_course 1 (demo_world (session_of alice))
  = (inl IntegrityError, demo_world (session_of alice))
  ∧ status (delete_course 1 (demo_world (session_of alice))).1 = 500
  ∧ Course_get (db (delete_course 1 (demo_world (session_of alice))).2) 1
    = Some algebra
  ∧ length (Course_lessons
              (db (delete_course 1 (demo_world (session_of alice))).2)
              algebra) = 2%nat
  ∧ lesson_files (db (delete_course 1 (demo_world (session_of alice))).2)
    = [LessonFile.mk 1 "notes.pdf" 1; LessonFile.mk 2 "notes.pdf" 2]
  ∧ uploads (delete_course 1 (demo_world (session_of alice))).2 !! "notes.pdf"
    = Some [x25; x50]
  ∧ enrolled_course_ids
      (db (delete_course 1 (demo_world (session_of alice))).2) 3 = [1].
Proof. repeat split. Qed.

(** ** Deleting a lesson *)

Lemma remove_physical_files_run files w :
  remove_physical_files files w
  = (inr tt,
     mkWorld (session w) (db w) (without_files (uploads w) files)
             (journal w ++ (OsRemove <$> removed_names (uploads w) files))).
Proof.
  revert w. induction files as [|file rest IH]; intros w.
  - simpl. unfold ret. rewrite app_nil_r. by destruct w.
  - simpl. unfold os_path_exists, os_remove. run.
    destruct (uploads w !! LessonFile.filename file) as [data|] eqn:Hfile.
    + simpl. rewrite Hfile. simpl. rewrite IH. simpl.
      by rewrite <- app_assoc.
    + simpl. rewrite IH. simpl. by rewrite delete_id.
Qed.

Lemma without_files_lookup fs files name :
  without_files fs files !! name
  = if decide (name ∈ LessonFile.filename <$> files) then None else fs !! name.
Proof.
  revert fs. induction files as [|file rest IH]; intros fs.
  - destruct (decide _) as [Hin|_]; [by apply elem_of_nil in Hin|done].
  - unfold without_files in *. cbn [foldl]. rewrite IH.
    rewrite fmap_cons.
    destruct (decide (name ∈ LessonFile.filename <$> rest)) as [Hin|Hnin].
    + rewrite decide_True; [done|by right].
    + destruct (decide (name = LessonFile.filename file)) as [->|Hne].
      * rewrite lookup_delete_eq. rewrite decide_True; [done|by left].
      * rewrite lookup_delete_ne by done. rewrite decide_False; [done|].
        by intros [?|?]%elem_of_cons.
Qed.

Lemma removed_names_present fs files name :
  name ∈ removed_names fs files → name ∈ LessonFile.filename <$> files.
Proof.
  revert fs. induction files as [|file rest IH]; intros fs; simpl; [done|].
  destruct (fs !! LessonFile.filename file).
  - intros [->|Hin]%elem_of_cons; [by left|right; eauto].
  - intros Hin. right. eauto.
Qed.

Lemma Lesson_get_id d i l : Lesson_get d i = Some l → Lesson.id l = i.
Proof.
  unfold Lesson_get. intros Hl. apply head_Some_elem_of in Hl.
  by apply list_elem_of_filter in Hl as [? _].
Qed.

(** The world after the owner's [delete_lesson]. *)
Lemma delete_lesson_owner w t lesson_id lesson course :
  teacher_session (session w) t →
  Lesson_get (db w) lesson_id = Some lesson →
  Lesson_course (db w) lesson = Some course → Course.teacher_id course = t →
  delete_lesson lesson_id w
  = (inr (RedirectTo (ep_course_detail (Course.id course))),
     mkWorld
       (mkSession (user_id (session w)) (user_name (session w))
                  (user_role (session w))
                  (flashes (session w) ++ ["Lesson deleted successfully"]))
       (mkDB (users (db w)) (courses (db w)) (enrollments (db w))
             (filter (λ x, Lesson.id x ≠ lesson_id) (lessons (db w)))
             (filter (λ f, LessonFile.lesson_id f ≠ lesson_id)
                     (lesson_files (db w))))
       (without_files (uploads w) (Lesson_files (db w) lesson))
       (journal w
          ++ (OsRemove
                <$> removed_names (uploads w) (Lesson_files (db w) lesson))
          ++ (SqlDelete t_lesson_file ∘ LessonFile.id
                <$> Lesson_files (db w) lesson)
          ++ [SqlDelete t_lesson lesson_id])).
Proof.
  intros Hs Hl Hc Ho. unfold delete_lesson.
  rewrite (teacher_required_pass _ w t) by done.
  destruct Hs as (Hu & _ & _). unfold lesson_course.
  cbv beta iota delta [mbind M_bind bind get_db get_or_404 get_session ret
    raise]. simpl.
  rewrite Hl. simpl. rewrite Hc, Hu. simpl.
  case_decide as Hne; [by rewrite Ho in Hne|].
  rewrite remove_physical_files_run.
  unfold delete_Lesson, Lesson_files. run.
  rewrite (Lesson_get_id _ _ _ Hl), Hu. by rewrite <- !app_assoc.
Qed.

Lemma removed_names_complete fs files file :
  file ∈ files → is_Some (fs !! LessonFile.filename file) →
  LessonFile.filename file ∈ removed_names fs files.
Proof.
  revert fs. induction files as [|first rest IH]; intros fs Hin Hsome.
  - by apply elem_of_nil in Hin.
  - simpl. apply elem_of_cons in Hin as [->|Hin].
    + destruct Hsome as [data ->]. by left.
    + destruct (fs !! LessonFile.filename first) eqn:Hfirst; [|by apply IH].
      destruct (decide (LessonFile.filename file = LessonFile.filename first))
        as [->|Hne]; [by left|].
      right. apply IH; [done|]. by rewrite lookup_delete_ne.
Qed.

Lemma removed_names_in_folder fs files name :
  name ∈ removed_names fs files → is_Some (fs !! name).
Proof.
  revert fs. induction files as [|first rest IH]; intros fs; simpl.
  - by intros ?%elem_of_nil.
  - destruct (fs !! LessonFile.filename first) eqn:Hfirst; [|by apply IH].
    intros [Heq|Hin]%elem_of_cons; [rewrite Heq; by eexists|].
    apply IH in Hin.
    destruct (decide (LessonFile.filename first = name)) as [Heq|Hne].
    + rewrite Heq, lookup_delete_eq in Hin. by destruct Hin.
    + by rewrite lookup_delete_ne in Hin.
Qed.

Lemma filter_excluded {A} (P Q : A → Prop) `{!∀ x, Decision (P x)}
    `{!∀ x, Decision (Q x)} (l : list A) :
  (∀ x, P x → Q x → False) → filter P (filter Q l) = [].
Proof.
  intros Hex. induction l as [|x l IH]; [done|].
  rewrite filter_cons. destruct (decide (Q x)); [|done].
  rewrite filter_cons. destruct (decide (P x)); [|done].
  by destruct (Hex x).
Qed.

(** C6.  The owner's [delete_lesson] never aborts, whether the bytes of the
    attached files are in the folder or not, and it works in this order:
    first one [os.remove] for every attached file that is there, then the
    DELETE of every LessonFile row of the lesson, then the DELETE of the
    Lesson row.  Afterwards no attached file name is left in the folder,
    the other files are untouched, and the lesson and its LessonFile rows
    are gone. *)
Theorem delete_lesson_cleanup_order w t lesson_id lesson course :
  teacher_session (session w) t →
  Lesson_get (db w) lesson_id = Some lesson →
  Lesson_course (db w) lesson = Some course → Course.teacher_id course = t →
  let files := Lesson_files (db w) lesson in
  let w' := (delete_lesson lesson_id w).2 in
  (delete_lesson lesson_id w).1
  = inr (RedirectTo (ep_course_detail (Course.id course)))
  ∧ journal w'
    = (journal w
         ++ (OsRemove <$> removed_names (uploads w) files)
         ++ (SqlDelete t_lesson_file ∘ LessonFile.id <$> files)
         ++ [SqlDelete t_lesson lesson_id])%list
  ∧ (∀ file, file ∈ files →
       ((is_Some (uploads w !! LessonFile.filename file))
        ↔ (LessonFile.filename file ∈ removed_names (uploads w) files))
       ∧ uploads w' !! LessonFile.filename file = None)
  ∧ (∀ name, name ∉ LessonFile.filename <$> files →
       (name ∉ removed_names (uploads w) files)
       ∧ uploads w' !! name = uploads w !! name)
  ∧ Lesson_files (db w') lesson = []
  ∧ Lesson_get (db w') lesson_id = None.
Proof.
  intros Hs Hl Hc Ho files w'. subst w'.
  rewrite (delete_lesson_owner w t lesson_id lesson course) by done.
  simpl. fold files. repeat split.
  - by apply removed_names_complete.
  - apply removed_names_in_folder.
  - rewrite without_files_lookup. rewrite decide_True; [done|].
    by apply list_elem_of_fmap_2.
  - intros Hin. by apply removed_names_present in Hin.
  - rewrite without_files_lookup. by rewrite decide_False.
  - unfold Lesson_files. simpl. rewrite (Lesson_get_id _ _ _ Hl).
    apply filter_excluded. naive_solver.
  - unfold Lesson_get. simpl. rewrite filter_excluded; [done|naive_solver].
Qed.

Lemma delete_lesson_cleanup_order_witness :
  journal (delete_lesson 1 (demo_world (session_of alice))).2
  = [OsRemove "notes.pdf"; SqlDelete t_lesson_file 1; SqlDelete t_lesson 1]
  ∧ Lesson_get (db (delete_lesson 1 (demo_world (session_of alice))).2) 1
    = None.
Proof.
  destruct (delete_lesson_cleanup_order (demo_world (session_of alice)) 1 1
              (Lesson.mk 1 "Groups" (Some "A group is ...") 1) algebra)
    as (_ & Hjournal & _ & _ & _ & Hget); [done..|].
  split; [exact Hjournal | exact Hget].
Defined.

(** ** Adding a lesson with a file *)

Lemma next_id_fresh ids x : x ∈ ids → x < next_id ids.
Proof.
  unfold next_id. induction ids as [|y ids IH]; simpl.
  - by intros ?%elem_of_nil.
  - intros [->|Hin]%elem_of_cons; [lia|]. specialize (IH Hin). lia.
Qed.

Lemma new_lesson_fresh title content course_id w :
  new_lesson title content course_id w ∉ lessons (db w).
Proof.
  intros Hin.
  assert (Lesson.id (new_lesson title content course_id w)
          ∈ Lesson.id <$> lessons (db w)) as Hid
    by (by apply list_elem_of_fmap_2).
  apply next_id_fresh in Hid. simpl in Hid. lia.
Qed.

Section AddLesson.

Context `{Werkzeug}.

Variables (w : World) (t course_id : Z) (course : Course.t) (req : Request).
Variables (title content : string) (file : FileStorage).

Hypothesis Hsession : teacher_session (session w) t.
Hypothesis Hcourse : Course_get (db w) course_id = Some course.
Hypothesis Howner : Course.teacher_id course = t.
Hypothesis Hmethod : method req = POST.
Hypothesis Htitle : form req !! "title" = Some title.
Hypothesis Hcontent : form req !! "content" = Some content.
Hypothesis Hfile : files_file req = Some file.
Hypothesis Hfilename : file_filename file ≠ "".

Let lesson := new_lesson title content course_id w.
Let name := secure_filename (file_filename file).

Lemma add_lesson_save_fails :
  save_raises req = true ∨ name = "" →
  add_lesson course_id req w = (inl OSError, with_lesson lesson w).
Proof.
  intros Hfail.
  rewrite (add_lesson_owner_post w t course_id course req title) by done.
  unfold add_Lesson, file_save. run. rewrite Hcontent, Hfile. simpl.
  rewrite (Course_get_id _ _ _ Hcourse).
  rewrite decide_True by done. fold name.
  destruct (save_raises req); [done|].
  destruct Hfail as [?|Hempty]; [done|]. by rewrite decide_True.
Qed.

Lemma add_lesson_file_row_fails :
  save_raises req = false → name ≠ "" → file_row_commit_raises req = true →
  add_lesson course_id req w
  = (inl OperationalError,
     mkWorld (session w) (db (with_lesson lesson w))
             (<[name := file_data file]> (uploads w))
             (journal w ++ [SqlInsert t_lesson (Lesson.id lesson);
                            FileSave name])).
Proof.
  intros Hsave Hname Hrow.
  rewrite (add_lesson_owner_post w t course_id course req title) by done.
  unfold add_Lesson, file_save, add_LessonFile. run.
  rewrite Hcontent, Hfile. simpl.
  rewrite (Course_get_id _ _ _ Hcourse).
  rewrite decide_True by done. fold name. rewrite Hsave.
  rewrite decide_False by done. simpl. rewrite Hrow.
  by rewrite <- app_assoc.
Qed.

Lemma add_lesson_with_file :
  save_raises req = false → name ≠ "" → file_row_commit_raises req = false →
  add_lesson course_id req w
  = (inr (RedirectTo (ep_course_detail course_id)),
     mkWorld (session w)
       (mkDB (users (db w)) (courses (db w)) (enrollments (db w))
             (lessons (db w) ++ [lesson])
             (lesson_files (db w)
                ++ [LessonFile.mk
                      (next_id (LessonFile.id <$> lesson_files (db w)))
                      name (Lesson.id lesson)]))
       (<[name := file_data file]> (uploads w))
       (journal w
          ++ [SqlInsert t_lesson (Lesson.id lesson);
              FileSave name;
              SqlInsert t_lesson_file
                (next_id (LessonFile.id <$> lesson_files (db w)))])).
Proof.
  intros Hsave Hname Hrow.
  rewrite (add_lesson_owner_post w t course_id course req title) by done.
  unfold add_Lesson, file_save, add_LessonFile. run.
  rewrite Hcontent, Hfile. simpl.
  rewrite (Course_get_id _ _ _ Hcourse).
  rewrite decide_True by done. fold name. rewrite Hsave.
  rewrite decide_False by done. simpl. rewrite Hrow. simpl.
  by rewrite <- !app_assoc.
Qed.

End AddLesson.

(** C9.  [add_lesson] commits the Lesson row before it touches the file.
    For every POST of the owner that carries a title, a content and a file
    with a name: the new row was not in the table before; when [file.save]
    fails (the disk refuses, or the sanitized name is empty) the answer is
    an OSError and the world is the one right after the first commit, with
    the new Lesson row and no file; when the commit of the LessonFile row
    fails the answer is an OperationalError, the new Lesson row and the
    saved bytes stay and no LessonFile row exists; and when nothing fails
    the journal shows the order: Lesson row, file, LessonFile row. *)
Theorem add_lesson_not_atomic `{Werkzeug} w t course_id course req title
    content file :
  teacher_session (session w) t →
  Course_get (db w) course_id = Some course → Course.teacher_id course = t →
  method req = POST → form req !! "title" = Some title →
  form req !! "content" = Some content →
  files_file req = Some file → file_filename file ≠ "" →
  let lesson := new_lesson title content course_id w in
  let name := secure_filename (file_filename file) in
  (lesson ∉ lessons (db w))
  ∧ (save_raises req = true ∨ name = "" →
     add_lesson course_id req w = (inl OSError, with_lesson lesson w))
  ∧ (save_raises req = false → name ≠ "" →
     file_row_commit_raises req = true →
     (add_lesson course_id req w).1 = inl OperationalError
     ∧ db (add_lesson course_id req w).2 = db (with_lesson lesson w)
     ∧ uploads (add_lesson course_id req w).2 !! name = Some (file_data file))
  ∧ (save_raises req = false → name ≠ "" →
     file_row_commit_raises req = false →
     (add_lesson course_id req w).1
     = inr (RedirectTo (ep_course_detail course_id))
     ∧ journal (add_lesson course_id req w).2
       = (journal w
            ++ [SqlInsert t_lesson (Lesson.id lesson);
                FileSave name;
                SqlInsert t_lesson_file
                  (next_id (LessonFile.id <$> lesson_files (db w)))])%list)
  ∧ lesson ∈ lessons (db (with_lesson lesson w))
  ∧ lesson_files (db (with_lesson lesson w)) = lesson_files (db w).
Proof.
  intros Hs Hc Ho Hm Ht Hcontent Hfile Hname lesson name.
  split; [apply new_lesson_fresh|].
  split; [by apply (add_lesson_save_fails w t course_id course req title)|].
  split.
  { intros Hsave Hne Hrow.
    rewrite (add_lesson_file_row_fails w t course_id course req title content
               file) by done.
    simpl. repeat split. apply lookup_insert_eq. }
  split.
  { intros Hsave Hne Hrow.
    by rewrite (add_lesson_with_file w t course_id course req title content
                  file) by done. }
  split; [|done]. simpl. apply elem_of_app. right. by left.
Qed.

Lemma add_lesson_not_atomic_witness :
  add_lesson (H := demo_werkzeug) 1
    (post [("title", "Fields"); ("content", "A field is ...")]
          (Some (mkFile ".." [x25])))
    (demo_world (session_of alice))
  = (inl OSError,
     with_lesson (Lesson.mk 3 "Fields" (Some "A field is ...") 1)
                 (demo_world (session_of alice))).
Proof.
  destruct (add_lesson_not_atomic (H := demo_werkzeug)
              (demo_world (session_of alice)) 1 1 algebra
              (post [("title", "Fields"); ("content", "A field is ...")]
                    (Some (mkFile ".." [x25])))
              "Fields" "A field is ..." (mkFile ".." [x25]))
    as (_ & Hsave & _); [done..|].
  apply Hsave. by right.
Defined.

(** ** Files that share a name *)

Lemma uploaded_file_missing w u name :
  user_id (session w) = Some u → u ≠ 0 → uploads w !! name = None →
  uploaded_file name w = (inl NotFound, w).
Proof.
  intros Hu Hne Hmissing. unfold uploaded_file.
  rewrite (login_required_pass _ w u) by done.
  unfold send_from_directory. run. by rewrite Hmissing.
Qed.

(** C10.  The upload folder is keyed by file name alone.  When the owner
    deletes a lesson that has a file [mine] attached, and a LessonFile row
    [other] of another lesson carries the same file name, then after
    [delete_lesson] the row [other] and its lesson are still in the
    database, but the bytes under that name are gone (an [os.remove] of the
    name is in the journal when they were there), and every logged-in
    caller's [uploaded_file] for the name aborts with 404. *)
Theorem delete_lesson_removes_shared_bytes w t lesson_id lesson course mine
    other :
  teacher_session (session w) t →
  Lesson_get (db w) lesson_id = Some lesson →
  Lesson_course (db w) lesson = Some course → Course.teacher_id course = t →
  mine ∈ lesson_files (db w) → LessonFile.lesson_id mine = lesson_id →
  other ∈ lesson_files (db w) → LessonFile.lesson_id other ≠ lesson_id →
  LessonFile.filename other = LessonFile.filename mine →
  let w' := (delete_lesson lesson_id w).2 in
  other ∈ lesson_files (db w')
  ∧ (∀ l, l ∈ lessons (db w) → Lesson.id l = LessonFile.lesson_id other →
       l ∈ lessons (db w'))
  ∧ uploads w' !! LessonFile.filename other = None
  ∧ (is_Some (uploads w !! LessonFile.filename other) →
     OsRemove (LessonFile.filename other) ∈ journal w')
  ∧ (∀ s u, user_id s = Some u → u ≠ 0 →
       uploaded_file (LessonFile.filename other)
                     (mkWorld s (db w') (uploads w') (journal w'))
       = (inl NotFound, mkWorld s (db w') (uploads w') (journal w'))).
Proof.
  intros Hs Hl Hc Ho Hmine Hmine_id Hother Hother_id Hname w'.
  assert (mine ∈ Lesson_files (db w) lesson) as Hattached.
  { unfold Lesson_files. apply list_elem_of_filter.
    by rewrite (Lesson_get_id _ _ _ Hl). }
  assert (uploads w' !! LessonFile.filename other = None) as Hgone.
  { subst w'.
    rewrite (delete_lesson_owner w t lesson_id lesson course) by done.
    simpl. rewrite without_files_lookup, decide_True; [done|].
    rewrite Hname. by apply list_elem_of_fmap_2. }
  subst w'. split; [|split; [|split; [done|split]]].
  - rewrite (delete_lesson_owner w t lesson_id lesson course) by done.
    simpl. by apply list_elem_of_filter.
  - intros l Hin Hid.
    rewrite (delete_lesson_owner w t lesson_id lesson course) by done.
    simpl. apply list_elem_of_filter. split; [congruence|done].
  - intros Hsome.
    rewrite (delete_lesson_owner w t lesson_id lesson course) by done.
    simpl. apply elem_of_app. right. apply elem_of_app. left.
    apply list_elem_of_fmap_2. rewrite Hname in *.
    by apply removed_names_complete.
  - intros s u Hu Hne. by apply (uploaded_file_missing _ u).
Qed.

Lemma delete_lesson_removes_shared_bytes_witness :
  LessonFile.mk 2 "notes.pdf" 2
    ∈ lesson_files (db (delete_lesson 1 (demo_world (session_of alice))).2)
  ∧ uploads (demo_world (session_of alice)) !! "notes.pdf" = Some [x25; x50]
  ∧ uploads (delete_lesson 1 (demo_world (session_of alice))).2 !! "notes.pdf"
    = None.
Proof.
  assert (teacher_session (session (demo_world (session_of alice))) 1) as Hs
    by (repeat split; done).
  assert (LessonFile.mk 1 "notes.pdf" 1
            ∈ lesson_files (db (demo_world (session_of alice)))) as Hmine
    by apply list_elem_of_here.
  assert (LessonFile.mk 2 "notes.pdf" 2
            ∈ lesson_files (db (demo_world (session_of alice)))) as Hother
    by apply list_elem_of_further, list_elem_of_here.
  destruct (delete_lesson_removes_shared_bytes
              (demo_world (session_of alice)) 1 1
              (Lesson.mk 1 "Groups" (Some "A group is ...") 1) algebra
              (LessonFile.mk 1 "notes.pdf" 1) (LessonFile.mk 2 "notes.pdf" 2)
              Hs eq_refl eq_refl eq_refl Hmine eq_refl Hother ltac:(done)
              eq_refl)
    as (Hrow & _ & Hgone & _).
  split; [exact Hrow | split; [reflexivity | exact Hgone]].
Defined.

(** * Further properties of the routes *)

(** ** The decorators *)




Section Decorators.

Context `{Werkzeug}.





End Decorators.




(** ** Signing up and logging in *)

Lemma User_by_email_unknown d e :
  e ∉ User.email <$> users d → User_by_email d e = [].
Proof.
  unfold User_by_email. induction (users d) as [|u us IH]; [done|].
  rewrite fmap_cons, not_elem_of_cons. intros [Hne Hnin].
  rewrite filter_cons_False by done. by apply IH.
Qed.

Lemma User_by_email_known d e :
  e ∈ User.email <$> users d → ∃ u, head (User_by_email d e) = Some u.
Proof.
  intros (u & -> & Hu)%list_elem_of_fmap.
  destruct (User_by_email d (User.email u)) as [|u' us] eqn:Hnil;
    [|by eexists].
  exfalso. apply (filter_nil_not_elem_of _ _ u Hnil); done.
Qed.

Section Signup.

Context `{Werkzeug}.

(** X4.  A signup POST whose email is already the email of a user is
    refused, whatever else the form holds: flash "Email already exists",
    redirect back to signup, and no row is written. *)
Theorem signup_duplicate_email req w email :
  method req = POST → form req !! "email" = Some email →
  email ∈ User.email <$> users (db w) →
  signup req w
  = (inr (RedirectTo ep_signup), with_flash "Email already exists" w).
Proof.
  intros Hm He Hin. unfold signup. rewrite Hm. run. rewrite He. simpl.
  destruct (User_by_email_known _ _ Hin) as [u ->]. done.
Qed.

Lemma signup_fresh_email req w name email password role :
  method req = POST →
  form req !! "name" = Some name → form req !! "email" = Some email →
  form req !! "password" = Some password → form req !! "role" = Some role →
  email ∉ User.email <$> users (db w) →
  signup req w
  = (inr (RedirectTo ep_login),
     with_flash "Account created. Please login."
       (mkWorld (session w)
          (mkDB (users (db w)
                   ++ [new_user name email password role (salt req) w])
                (courses (db w)) (enrollments (db w)) (lessons (db w))
                (lesson_files (db w)))
          (uploads w)
          (journal w
             ++ [SqlInsert t_user (next_id (User.id <$> users (db w)))]))).
Proof.
  intros Hm Hn He Hp Hr Hnew. unfold signup, add_User. rewrite Hm. run.
  rewrite He. simpl. rewrite (User_by_email_unknown _ _ Hnew). simpl.
  rewrite Hn. simpl. rewrite Hp. simpl. rewrite Hr. simpl.
  by rewrite decide_False.
Qed.

(** X5.  Signup and login fit together: after a signup with a fresh email,
    a login with the same email and password succeeds, provided werkzeug
    verifies the password against the hash it made of it.  The session
    then carries the id, the name and the role of the new user, and the
    store is the one signup left. *)
Theorem signup_then_login req req' w name email password role :
  check_password_hash (generate_password_hash (salt req) password) password
  = true →
  method req = POST →
  form req !! "name" = Some name → form req !! "email" = Some email →
  form req !! "password" = Some password → form req !! "role" = Some role →
  email ∉ User.email <$> users (db w) →
  method req' = POST → form req' !! "email" = Some email →
  form req' !! "password" = Some password →
  let w1 := (signup req w).2 in
  let u := new_user name email password role (salt req) w in
  (signup req w).1 = inr (RedirectTo ep_login)
  ∧ users (db w1) = (users (db w) ++ [u])%list
  ∧ login req' w1
    = (inr (RedirectTo ep_dashboard),
       with_session (mkSession (Some (User.id u)) (Some name) (Some role)
                               (flashes (session w1))) w1).
Proof.
  intros Hcheck Hm Hn He Hp Hr Hnew Hm' He' Hp' w1 u. subst w1.
  rewrite (signup_fresh_email req w name email password role) by done.
  split; [done|]. split; [done|].
  unfold login. rewrite Hm'. run. rewrite He'. simpl.
  unfold User_by_email. simpl. rewrite filter_app.
  fold (User_by_email (db w) email).
  rewrite (User_by_email_unknown _ _ Hnew). simpl.
  rewrite filter_cons_True by done. simpl. rewrite Hp'. simpl.
  by rewrite Hcheck.
Qed.

End Signup.

Lemma signup_duplicate_email_witness :
  signup (H := demo_werkzeug) (post [("email", "carol@example.org")] None)
         (demo_world anonymous)
  = (inr (RedirectTo ep_signup),
     with_flash "Email already exists" (demo_world anonymous)).
Proof.
  apply (signup_duplicate_email (H := demo_werkzeug) _ _
           "carol@example.org"); [reflexivity | reflexivity |].
  apply list_elem_of_further, list_elem_of_further, list_elem_of_here.
Defined.

Lemma signup_then_login_witness :
  (login (H := demo_werkzeug)
     (post [("email", "dan@example.org"); ("password", "pw-d")] None)
     (signup (H := demo_werkzeug)
        (post [("name", "Dan"); ("email", "dan@example.org");
               ("password", "pw-d"); ("role", "student")] None)
        (demo_world anonymous)).2).1
  = inr (RedirectTo ep_dashboard).
Proof.
  destruct (signup_then_login (H := demo_werkzeug)
              (post [("name", "Dan"); ("email", "dan@example.org");
                     ("password", "pw-d"); ("role", "student")] None)
              (post [("email", "dan@example.org"); ("password", "pw-d")] None)
              (demo_world anonymous) "Dan" "dan@example.org" "pw-d" "student")
    as (_ & _ & Hlogin); [reflexivity.. | | reflexivity | reflexivity
                         | reflexivity |].
  - intros Hin. repeat (apply elem_of_cons in Hin as [Hin|Hin];
                        [discriminate Hin|]).
    by apply elem_of_nil in Hin.
  - by rewrite Hlogin.
Defined.

(** ** Primary keys *)

Lemma next_id_positive ids : 0 < next_id ids.
Proof.
  unfold next_id. assert (0 ≤ foldr Z.max 0 ids); [|lia].
  induction ids as [|i ids IH]; simpl; lia.
Qed.

Lemma keys_ok_in_nil : keys_ok_in [].
Proof. split; [constructor | by intros i ?%elem_of_nil]. Qed.

Lemma keys_ok_in_snoc ids : keys_ok_in ids → keys_ok_in (ids ++ [next_id ids]).
Proof.
  intros [Hnd Hpos]. split.
  - apply NoDup_app. split; [done|]. split; [|apply NoDup_singleton].
    intros i Hi ->%list_elem_of_singleton. apply next_id_fresh in Hi. lia.
  - intros i [Hi | ->%list_elem_of_singleton]%elem_of_app;
      [by apply Hpos | apply next_id_positive].
Qed.

Lemma keys_ok_in_sublist ids ids' :
  ids' `sublist_of` ids → keys_ok_in ids → keys_ok_in ids'.
Proof.
  intros Hsub [Hnd Hpos]. split; [by eapply sublist_NoDup|].
  intros i Hi. apply Hpos. by eapply elem_of_sublist.
Qed.

Lemma keys_ok_in_filter {A} (key : A → Z) (P : A → Prop)
    `{!∀ x, Decision (P x)} (rows : list A) :
  keys_ok_in (key <$> rows) → keys_ok_in (key <$> filter P rows).
Proof. apply keys_ok_in_sublist, fmap_sublist, sublist_filter. Qed.

(** Replacing rows by rows with the same key keeps the keys. *)
Lemma fmap_key_replace {A} (key : A → Z) (f : A → A) (rows : list A) :
  (∀ x, key (f x) = key x) → key <$> (f <$> rows) = key <$> rows.
Proof.
  intros Hkey. rewrite <- list_fmap_compose. apply list_fmap_ext.
  intros _ x _. apply Hkey.
Qed.

(** Splits [keys_ok] into its five tables and closes each with [tac]. *)
Ltac keys_tables tac :=
  unfold keys_ok; simpl;
  repeat match goal with |- _ ∧ _ => split end;
  first [ assumption | tac ].

Ltac keys_added := rewrite fmap_app; by apply keys_ok_in_snoc.
Ltac keys_replaced :=
  rewrite fmap_key_replace; [assumption|]; intros ?; by case_decide.
Ltac keys_removed := by apply keys_ok_in_filter.

Lemma db_inv_keys_add_User name email password role :
  db_inv keys_ok (add_User name email password role).
Proof.
  intros w (Hu & Hc & He & Hl & Hf). unfold add_User. run.
  case_decide; [done|]. keys_tables keys_added.
Qed.

Lemma db_inv_keys_add_Course title description teacher_id :
  db_inv keys_ok (add_Course title description teacher_id).
Proof. intros w (Hu & Hc & He & Hl & Hf). keys_tables keys_added. Qed.

Lemma db_inv_keys_add_Enrollment student_id course_id :
  db_inv keys_ok (add_Enrollment student_id course_id).
Proof. intros w (Hu & Hc & He & Hl & Hf). keys_tables keys_added. Qed.

Lemma db_inv_keys_add_Lesson title content course_id :
  db_inv keys_ok (add_Lesson title content course_id).
Proof.
  intros w (Hu & Hc & He & Hl & Hf). unfold add_Lesson. run.
  destruct content; [|done]. keys_tables keys_added.
Qed.

Lemma db_inv_keys_add_LessonFile req filename lesson_id :
  db_inv keys_ok (add_LessonFile req filename lesson_id).
Proof.
  intros w (Hu & Hc & He & Hl & Hf). unfold add_LessonFile. run.
  case_match; [done|]. keys_tables keys_added.
Qed.

Lemma db_inv_keys_update_Course c title description :
  db_inv keys_ok (update_Course c title description).
Proof.
  intros w (Hu & Hc & He & Hl & Hf). unfold update_Course. run.
  case_decide; [done|]. keys_tables keys_replaced.
Qed.

Lemma db_inv_keys_update_Lesson l title content :
  db_inv keys_ok (update_Lesson l title content).
Proof.
  intros w (Hu & Hc & He & Hl & Hf). unfold update_Lesson. run.
  case_decide; [done|]. destruct content; [|done].
  keys_tables keys_replaced.
Qed.

Lemma db_inv_keys_delete_Course c : db_inv keys_ok (delete_Course c).
Proof.
  intros w (Hu & Hc & He & Hl & Hf). unfold delete_Course. run.
  repeat case_match; try done. keys_tables keys_removed.
Qed.

Lemma db_inv_keys_delete_Enrollment e : db_inv keys_ok (delete_Enrollment e).
Proof. intros w (Hu & Hc & He & Hl & Hf). keys_tables keys_removed. Qed.

Lemma db_inv_keys_delete_Lesson l : db_inv keys_ok (delete_Lesson l).
Proof. intros w (Hu & Hc & He & Hl & Hf). keys_tables keys_removed. Qed.

#[local] Hint Resolve db_inv_keys_add_User db_inv_keys_add_Course
  db_inv_keys_add_Enrollment db_inv_keys_add_Lesson db_inv_keys_add_LessonFile
  db_inv_keys_update_Course db_inv_keys_update_Lesson
  db_inv_keys_delete_Course db_inv_keys_delete_Enrollment
  db_inv_keys_delete_Lesson : lms.

(** Unfolds the routes in a goal about [handle]. *)
Ltac unfold_routes :=
  unfold home, signup, login, logout, dashboard, teacher_courses,
    create_course, edit_course, delete_course, all_courses, enroll, unenroll,
    course_detail, add_lesson, edit_lesson, lesson_course, delete_lesson,
    uploaded_file.

Section Keys.

Context `{Werkzeug}.

Lemma db_inv_keys_handle r req : db_inv keys_ok (handle r req).
Proof. destruct r; simpl; unfold_routes; split_route. Qed.

Lemma reachable_keys w : reachable w → keys_ok (db w).
Proof.
  induction 1 as [s | w r req _ IH | w s _ IH]; simpl.
  - repeat split; try apply NoDup_nil_2; by intros i ?%elem_of_nil.
  - by apply db_inv_keys_handle.
  - done.
Qed.

(** X6.  In every reachable world the primary keys of each of the five
    tables are pairwise different and positive: a new row gets the id
    after the largest one in use, updates keep the id and deletions only
    remove rows. *)
Theorem reachable_keys_ok w : reachable w → keys_ok (db w).
Proof. apply reachable_keys. Qed.

End Keys.

Lemma reachable_keys_ok_witness :
  keys_ok (db (serve (H := demo_werkzeug) demo_script
                     (mkWorld anonymous empty_db ∅ []))).
Proof.
  apply (reachable_keys_ok (H := demo_werkzeug)).
  apply serve_reachable, reachable_init.
Defined.

(** ** Unique emails *)

Lemma filter_nil_intro {A} (P : A → Prop) `{!∀ x, Decision (P x)}
    (l : list A) :
  (∀ x, x ∈ l → ¬ P x) → filter P l = [].
Proof.
  intros Hnone. induction l as [|x l IH]; [done|].
  rewrite filter_cons_False; [|apply Hnone; by left].
  apply IH. intros y Hy. apply Hnone. by right.
Qed.

(** Closes [db_inv Q prim] for a primitive that leaves alone the tables
    that [Q] looks at. *)
Ltac untouched Q :=
  intros w HQ;
  unfold add_User, add_Course, add_Enrollment, add_Lesson, add_LessonFile,
    update_Course, update_Lesson, delete_Course, delete_Enrollment,
    delete_Lesson;
  run; repeat case_match; unfold Q in *; simpl; done.

Lemma db_inv_emails_add_User name email password role :
  db_inv emails_unique (add_User name email password role).
Proof.
  intros w Hnd. unfold add_User. run. case_decide as Hnew; [done|].
  unfold emails_unique in *. simpl. rewrite fmap_app. apply NoDup_app.
  split; [done|]. split; [|apply NoDup_singleton].
  by intros e He ->%list_elem_of_singleton.
Qed.

Lemma db_inv_emails_add_Course title description teacher_id :
  db_inv emails_unique (add_Course title description teacher_id).
Proof. untouched emails_unique. Qed.
Lemma db_inv_emails_add_Enrollment student_id course_id :
  db_inv emails_unique (add_Enrollment student_id course_id).
Proof. untouched emails_unique. Qed.
Lemma db_inv_emails_add_Lesson title content course_id :
  db_inv emails_unique (add_Lesson title content course_id).
Proof. untouched emails_unique. Qed.
Lemma db_inv_emails_add_LessonFile req filename lesson_id :
  db_inv emails_unique (add_LessonFile req filename lesson_id).
Proof. untouched emails_unique. Qed.
Lemma db_inv_emails_update_Course c title description :
  db_inv emails_unique (update_Course c title description).
Proof. untouched emails_unique. Qed.
Lemma db_inv_emails_update_Lesson l title content :
  db_inv emails_unique (update_Lesson l title content).
Proof. untouched emails_unique. Qed.
Lemma db_inv_emails_delete_Course c :
  db_inv emails_unique (delete_Course c).
Proof. untouched emails_unique. Qed.
Lemma db_inv_emails_delete_Enrollment e :
  db_inv emails_unique (delete_Enrollment e).
Proof. untouched emails_unique. Qed.
Lemma db_inv_emails_delete_Lesson l :
  db_inv emails_unique (delete_Lesson l).
Proof. untouched emails_unique. Qed.

#[local] Hint Resolve db_inv_emails_add_User db_inv_emails_add_Course
  db_inv_emails_add_Enrollment db_inv_emails_add_Lesson
  db_inv_emails_add_LessonFile db_inv_emails_update_Course
  db_inv_emails_update_Lesson db_inv_emails_delete_Course
  db_inv_emails_delete_Enrollment db_inv_emails_delete_Lesson : lms.

Section Emails.

Context `{Werkzeug}.

Lemma db_inv_emails_handle r req : db_inv emails_unique (handle r req).
Proof. destruct r; simpl; unfold_routes; split_route. Qed.

(** X7.  In every reachable world no two users have the same email, so
    the lookup by email of [login] and [signup] finds at most one user. *)
Theorem reachable_emails_unique w email :
  reachable w →
  emails_unique (db w) ∧ (length (User_by_email (db w) email) ≤ 1)%nat.
Proof.
  intros Hreach.
  assert (emails_unique (db w)) as Hnd.
  { induction Hreach as [s | w r req _ IH | w s _ IH]; simpl.
    - apply NoDup_nil_2.
    - by apply db_inv_emails_handle.
    - done. }
  split; [done|]. unfold emails_unique, User_by_email in *.
  induction (users (db w)) as [|u us IH]; [simpl; lia|].
  rewrite fmap_cons in Hnd. apply NoDup_cons in Hnd as [Hnin Hnd].
  rewrite filter_cons. case_decide as He; [|by apply IH].
  subst email. simpl.
  rewrite (filter_nil_intro _ us); [simpl; lia|].
  intros u' Hu' Heq. apply Hnin. rewrite <- Heq. by apply list_elem_of_fmap_2.
Qed.

End Emails.

Lemma reachable_emails_unique_witness :
  (length (User_by_email
             (db (serve (H := demo_werkzeug) demo_script
                        (mkWorld anonymous empty_db ∅ [])))
             "alice@example.org") ≤ 1)%nat.
Proof.
  apply (reachable_emails_unique (H := demo_werkzeug)).
  apply serve_reachable, reachable_init.
Defined.

(** ** More on enrollment *)

Lemma filter_all {A} (P : A → Prop) `{!∀ x, Decision (P x)} (l : list A) :
  (∀ x, x ∈ l → P x) → filter P l = l.
Proof.
  intros Hall. induction l as [|x l IH]; [done|].
  rewrite filter_cons_True; [|apply Hall; by left].
  f_equal. apply IH. intros y Hy. apply Hall. by right.
Qed.

(** Deleting the row that was just appended gives the table back. *)
Lemma filter_fresh_row {A} (key : A → Z) (rows : list A) (row : A) :
  key row = next_id (key <$> rows) →
  filter (λ x, key x ≠ key row) (rows ++ [row])%list = rows.
Proof.
  intros Hkey. rewrite filter_app, filter_cons_False, filter_nil, app_nil_r;
    [|by intros ?].
  apply filter_all. intros x Hx Heq.
  assert (key x < next_id (key <$> rows))
    by (apply next_id_fresh; by apply list_elem_of_fmap_2).
  lia.
Qed.

Lemma unenroll_enrolled w s course_id e :
  student_session (session w) s →
  head (Enrollment_by_pair (db w) s course_id) = Some e →
  unenroll course_id w
  = (inr (RedirectTo ep_all_courses),
     with_flash "You have unenrolled from the course"
       (mkWorld (session w)
          (mkDB (users (db w)) (courses (db w))
                (filter (λ x, Enrollment.id x ≠ Enrollment.id e)
                        (enrollments (db w)))
                (lessons (db w)) (lesson_files (db w)))
          (uploads w) (journal w ++ [SqlDelete t_enrollment (Enrollment.id e)]))).
Proof.
  intros (Hu & Ht & Hr) He. unfold unenroll.
  rewrite (login_required_pass _ w s) by done.
  unfold delete_Enrollment. run. rewrite Hr. simpl. rewrite Hu. simpl.
  by rewrite He.
Qed.

(** X8.  After a student's [enroll], the course id is among the student's
    enrolled course ids, and [all_courses] shows the whole course table
    together with these ids; the course table itself is not touched. *)
Theorem enroll_then_listed w s course_id :
  student_session (session w) s →
  let w1 := (enroll course_id w).2 in
  course_id ∈ enrolled_course_ids (db w1) s
  ∧ all_courses w1
    = (inr (all_courses_html (courses (db w))
                             (enrolled_course_ids (db w1) s)), w1).
Proof.
  intros Hs w1.
  assert (session w1 = session w ∧ courses (db w1) = courses (db w)
          ∧ ∃ e, e ∈ enrollments (db w1) ∧ Enrollment.student_id e = s
                 ∧ Enrollment.course_id e = course_id) as (Hsess & Hc & Hin).
  { subst w1.
    destruct (Enrollment_by_pair (db w) s course_id) as [|e es] eqn:He.
    - rewrite (enroll_new w s) by done. simpl. repeat split.
      eexists. split; [apply elem_of_app; right; by left|done].
    - rewrite (enroll_existing w s) by (done || by rewrite He). simpl.
      repeat split. exists e.
      assert (e ∈ Enrollment_by_pair (db w) s course_id) as Hin
        by (rewrite He; by left).
      apply list_elem_of_filter in Hin as [[? ?] ?]. done. }
  clearbody w1. split.
  - destruct Hin as (e & Hin & Hes & Hec). unfold enrolled_course_ids.
    apply list_elem_of_fmap. exists e. split; [done|].
    apply list_elem_of_filter. done.
  - destruct Hs as (Hu & Ht & Hr). unfold all_courses.
    rewrite (login_required_pass _ w1 s) by (by rewrite ?Hsess).
    run. rewrite Hsess, Hr. simpl. rewrite Hsess, Hu. simpl. by rewrite Hc.
Qed.

(** X9.  Enrolling and then unenrolling is a round trip on the database:
    when the student was not enrolled before, [unenroll] after [enroll]
    finds the new row, deletes it and gives back the database as it was;
    the upload folder is untouched and the journal shows the INSERT and
    the DELETE of the same row. *)
Theorem enroll_then_unenroll w s course_id :
  student_session (session w) s →
  Enrollment_by_pair (db w) s course_id = [] →
  let w1 := (enroll course_id w).2 in
  let w2 := (unenroll course_id w1).2 in
  let n := next_id (Enrollment.id <$> enrollments (db w)) in
  (unenroll course_id w1).1 = inr (RedirectTo ep_all_courses)
  ∧ db w2 = db w ∧ uploads w2 = uploads w
  ∧ journal w2
    = (journal w ++ [SqlInsert t_enrollment n; SqlDelete t_enrollment n])%list
  ∧ flashes (session w2)
    = (flashes (session w) ++ ["You have unenrolled from the course"])%list.
Proof.
  intros Hs Hnew w1 w2 n. subst w1 w2.
  rewrite (enroll_new w s) by done. cbn [snd].
  rewrite (unenroll_enrolled _ s course_id
             (Enrollment.mk n s course_id)).
  - simpl. repeat split.
    + pose proof (filter_fresh_row Enrollment.id (enrollments (db w))
                    (Enrollment.mk n s course_id) eq_refl) as Hrows.
      simpl in Hrows. subst n. rewrite Hrows. by destruct (db w).
    + by rewrite <- app_assoc.
  - done.
  - by rewrite Enrollment_by_pair_added, Hnew.
Qed.

(** X10.  [unenroll] for a course the student is not enrolled in writes
    nothing: the answer is the flash "You are not enrolled in this course"
    and the redirect to the course list. *)
Theorem unenroll_not_enrolled w s course_id :
  student_session (session w) s →
  Enrollment_by_pair (db w) s course_id = [] →
  unenroll course_id w
  = (inr (RedirectTo ep_all_courses),
     with_flash "You are not enrolled in this course" w).
Proof.
  intros (Hu & Ht & Hr) He. unfold unenroll.
  rewrite (login_required_pass _ w s) by done.
  run. rewrite Hr. simpl. rewrite Hu. simpl. by rewrite He.
Qed.

(** X11.  A logged-in caller whose role is not student cannot enroll or
    unenroll: [enroll] redirects to the dashboard without a message and
    [unenroll] redirects there with the flash "Only students can
    unenroll"; neither writes anything. *)
Theorem enrollment_routes_students_only w u role course_id :
  user_id (session w) = Some u → u ≠ 0 →
  user_role (session w) = Some role → role ≠ "student" →
  enroll course_id w = (inr (RedirectTo ep_dashboard), w)
  ∧ unenroll course_id w
    = (inr (RedirectTo ep_dashboard),
       with_flash "Only students can unenroll" w).
Proof.
  intros Hu Hne Hr Hrole. unfold enroll, unenroll.
  rewrite !(login_required_pass _ w u) by done.
  run. rewrite Hr. simpl. rewrite !decide_True by congruence. done.
Qed.

Lemma enroll_then_listed_witness :
  2 ∈ enrolled_course_ids
        (db (enroll 2 (demo_world (session_of carol))).2) 3.
Proof.
  apply (enroll_then_listed (demo_world (session_of carol)) 3 2).
  repeat split; done.
Defined.

Lemma enroll_then_unenroll_witness :
  db (unenroll 2 (enroll 2 (demo_world (session_of carol))).2).2 = demo_db.
Proof.
  apply (enroll_then_unenroll (demo_world (session_of carol)) 3 2);
    [repeat split; done | reflexivity].
Defined.

Lemma unenroll_not_enrolled_witness :
  unenroll 2 (demo_world (session_of carol))
  = (inr (RedirectTo ep_all_courses),
     with_flash "You are not enrolled in this course"
                (demo_world (session_of carol))).
Proof.
  apply (unenroll_not_enrolled (demo_world (session_of carol)) 3 2);
    [repeat split; done | reflexivity].
Defined.

Lemma enrollment_routes_students_only_witness :
  enroll 1 (demo_world (session_of alice))
  = (inr (RedirectTo ep_dashboard), demo_world (session_of alice)).
Proof.
  apply (enrollment_routes_students_only (demo_world (session_of alice)) 1
           "teacher" 1); done.
Defined.

Lemma NoDup_fmap_eq {A} (key : A → Z) (rows : list A) x y :
  NoDup (key <$> rows) → x ∈ rows → y ∈ rows → key x = key y → x = y.
Proof.
  induction rows as [|r rows IH]; [by intros _ ?%elem_of_nil|].
  rewrite fmap_cons. intros [Hnin Hnd]%NoDup_cons.
  intros [->|Hx]%elem_of_cons [->|Hy]%elem_of_cons Hkey; try done.
  - exfalso. apply Hnin. rewrite Hkey. by apply list_elem_of_fmap_2.
  - exfalso. apply Hnin. rewrite <- Hkey. by apply list_elem_of_fmap_2.
  - by apply IH.
Qed.

Lemma filter_ext_in {A} (P Q : A → Prop) `{!∀ x, Decision (P x)}
    `{!∀ x, Decision (Q x)} (l : list A) :
  (∀ x, x ∈ l → P x ↔ Q x) → filter P l = filter Q l.
Proof.
  intros Hiff. induction l as [|x l IH]; [done|].
  rewrite !filter_cons.
  assert (filter P l = filter Q l) as ->
    by (apply IH; intros y Hy; apply Hiff; by right).
  assert (P x ↔ Q x) as Hx by (apply Hiff; by left).
  destruct (decide (P x)) as [HP|HP], (decide (Q x)) as [HQ|HQ]; try done;
    exfalso; tauto.
Qed.

Section Unenroll.

Context `{Werkzeug}.

(** X12.  In a reachable world, [unenroll] of an enrolled student removes
    exactly the rows of that student for that course: afterwards the
    course is not among the student's enrolled course ids, and the
    enrolled course ids of every other student are what they were. *)
Theorem unenroll_removes_own_row w s course_id :
  reachable w → student_session (session w) s →
  Enrollment_by_pair (db w) s course_id ≠ [] →
  let w' := (unenroll course_id w).2 in
  enrollments (db w')
  = filter (λ e, ¬ (Enrollment.student_id e = s
                    ∧ Enrollment.course_id e = course_id))
           (enrollments (db w))
  ∧ (course_id ∉ enrolled_course_ids (db w') s)
  ∧ (∀ s', s' ≠ s →
       enrolled_course_ids (db w') s' = enrolled_course_ids (db w) s').
Proof.
  intros Hreach Hs Hne w'.
  pose proof (reachable_store_ok w Hreach) as [Huniq _].
  pose proof (reachable_keys w Hreach) as (_ & _ & [Hnd _] & _).
  destruct (Enrollment_by_pair (db w) s course_id) as [|e es] eqn:Hpair;
    [done|].
  assert (es = []) as ->.
  { specialize (Huniq s course_id). rewrite Hpair in Huniq.
    destruct es; [done|simpl in Huniq; lia]. }
  assert (e ∈ enrollments (db w) ∧ Enrollment.student_id e = s
          ∧ Enrollment.course_id e = course_id) as (He & Hes & Hec).
  { assert (e ∈ Enrollment_by_pair (db w) s course_id) as Hin
      by (rewrite Hpair; by left).
    apply list_elem_of_filter in Hin as [[? ?] ?]. done. }
  assert (enrollments (db w')
          = filter (λ e, ¬ (Enrollment.student_id e = s
                            ∧ Enrollment.course_id e = course_id))
                   (enrollments (db w))) as Hrows.
  { subst w'. rewrite (unenroll_enrolled w s course_id e);
      [|done|by rewrite Hpair].
    simpl. apply filter_ext_in. intros x Hx. split.
    - intros Hid [Hxs Hxc]. apply Hid.
      assert (x ∈ Enrollment_by_pair (db w) s course_id) as Hin
        by (by apply list_elem_of_filter).
      rewrite Hpair in Hin. by apply list_elem_of_singleton in Hin as ->.
    - intros Hnot Hid. apply Hnot.
      by rewrite (NoDup_fmap_eq Enrollment.id _ x e Hnd Hx He Hid). }
  clearbody w'. split; [done|]. unfold enrolled_course_ids,
    Enrollment_by_student. rewrite Hrows. split.
  - intros (x & Hxc & Hx)%list_elem_of_fmap.
    apply list_elem_of_filter in Hx as [Hxs Hx].
    apply list_elem_of_filter in Hx as [Hnot _]. by apply Hnot.
  - intros s' Hs'. f_equal. rewrite list_filter_filter.
    apply filter_ext_in. intros x _. split; [by intros [? _]|].
    intros Hx. split; [done|]. intros [? _]. congruence.
Qed.

End Unenroll.

Lemma unenroll_removes_own_row_witness :
  1 ∉ enrolled_course_ids
        (db (unenroll 1
               (with_session (session_of carol)
                  (serve (H := demo_werkzeug) demo_script
                         (mkWorld anonymous empty_db ∅ [])))).2) 3.
Proof.
  apply (unenroll_removes_own_row (H := demo_werkzeug)
           (with_session (session_of carol)
              (serve (H := demo_werkzeug) demo_script
                     (mkWorld anonymous empty_db ∅ []))) 3 1).
  - apply reachable_client, serve_reachable, reachable_init.
  - repeat split; done.
  - discriminate.
Defined.

(** ** More on courses *)

(** Looking up the key of the row that was just appended finds that row. *)
Lemma head_filter_fresh_row {A} (key : A → Z) (rows : list A) (row : A) :
  key row = next_id (key <$> rows) →
  head (filter (λ x, key x = key row) (rows ++ [row])%list) = Some row.
Proof.
  intros Hkey. rewrite filter_app, (filter_nil_intro _ rows).
  - by rewrite filter_cons_True.
  - intros x Hx Heq.
    assert (key x < next_id (key <$> rows))
      by (apply next_id_fresh; by apply list_elem_of_fmap_2).
    lia.
Qed.

(** A lookup of another key is not affected by the appended row. *)
Lemma filter_other_row {A} (key : A → Z) (rows : list A) (row : A) i :
  i ≠ key row →
  filter (λ x, key x = i) (rows ++ [row])%list = filter (λ x, key x = i) rows.
Proof.
  intros Hne. rewrite filter_app, filter_cons_False, filter_nil, app_nil_r;
    [done|by intros ?].
Qed.

Lemma create_course_post w t req title description :
  teacher_session (session w) t → method req = POST →
  form req !! "title" = Some title →
  form req !! "description" = Some description →
  create_course req w
  = (inr (RedirectTo ep_teacher_courses),
     with_course (new_course title description t w) w).
Proof.
  intros Hs Hm Ht Hd. unfold create_course.
  rewrite (teacher_required_pass _ w t) by done.
  destruct Hs as (Hu & _ & _). rewrite Hm. unfold add_Course. run.
  rewrite Ht. simpl. rewrite Hd. simpl. by rewrite Hu.
Qed.

(** X13.  A teacher's [create_course] POST stores one new course, owned by
    the caller, under a new id, and nothing else.  The course can then be
    looked up by that id, and the teacher's own course list is the old
    one followed by the new course. *)
Theorem create_course_then_listed w t req title description :
  teacher_session (session w) t → method req = POST →
  form req !! "title" = Some title →
  form req !! "description" = Some description →
  let c := new_course title description t w in
  let w1 := (create_course req w).2 in
  create_course req w = (inr (RedirectTo ep_teacher_courses), with_course c w)
  ∧ Course_get (db w1) (Course.id c) = Some c
  ∧ (∀ i, i ≠ Course.id c → Course_get (db w1) i = Course_get (db w) i)
  ∧ teacher_courses w1
    = (inr (teacher_courses_html (Course_by_teacher (db w) t ++ [c])), w1).
Proof.
  intros Hs Hm Ht Hd c w1. subst w1.
  rewrite (create_course_post w t req title description) by done.
  cbn [snd]. split; [done|]. split; [|split].
  - unfold Course_get. simpl.
    apply (head_filter_fresh_row Course.id (courses (db w)) c). done.
  - intros i Hi. unfold Course_get. simpl.
    by rewrite (filter_other_row Course.id).
  - unfold teacher_courses.
    rewrite (teacher_required_pass _ _ t) by done.
    destruct Hs as (Hu & _ & _). run. rewrite Hu. simpl.
    unfold Course_by_teacher. simpl. rewrite filter_app.
    by rewrite filter_cons_True.
Qed.

(** X14.  Creating a course and deleting it again is a round trip on the
    database, as long as no lesson and no enrollment already carries the
    id the new course gets: the owner's [delete_course] then succeeds and
    the tables are what they were before the course was created. *)
Theorem create_then_delete_course w t req title description :
  teacher_session (session w) t → method req = POST →
  form req !! "title" = Some title →
  form req !! "description" = Some description →
  let n := next_id (Course.id <$> courses (db w)) in
  filter (λ l, Lesson.course_id l = n) (lessons (db w)) = [] →
  Enrollment_by_course (db w) n = [] →
  let w1 := (create_course req w).2 in
  let w2 := (delete_course n w1).2 in
  (delete_course n w1).1 = inr (RedirectTo ep_teacher_courses)
  ∧ db w2 = db w ∧ uploads w2 = uploads w
  ∧ journal w2 = (journal w ++ [SqlInsert t_course n; SqlDelete t_course n])%list.
Proof.
  intros Hs Hm Ht Hd n Hl He w1 w2. subst w1 w2.
  rewrite (create_course_post w t req title description) by done.
  cbn [snd].
  rewrite (delete_course_without_children _ t n
             (new_course title description t w)); try done.
  - simpl. repeat split.
    + pose proof (filter_fresh_row Course.id (courses (db w))
                    (new_course title description t w) eq_refl) as Hrows.
      simpl in Hrows. subst n. rewrite Hrows. by destruct (db w).
    + by rewrite <- app_assoc.
  - unfold Course_get. simpl.
    apply (head_filter_fresh_row Course.id (courses (db w))
             (new_course title description t w)). done.
Qed.

Lemma create_course_then_listed_witness :
  Course_get
    (db (create_course
           (post [("title", "Logic"); ("description", "Proofs")] None)
           (demo_world (session_of bob))).2) 2
  = Some (Course.mk 2 "Logic" "Proofs" 2).
Proof.
  apply (create_course_then_listed (demo_world (session_of bob)) 2
           (post [("title", "Logic"); ("description", "Proofs")] None)
           "Logic" "Proofs"); [repeat split; done | reflexivity..].
Defined.

Lemma create_then_delete_course_witness :
  db (delete_course 2
        (create_course
           (post [("title", "Logic"); ("description", "Proofs")] None)
           (demo_world (session_of bob))).2).2
  = demo_db.
Proof.
  apply (create_then_delete_course (demo_world (session_of bob)) 2
           (post [("title", "Logic"); ("description", "Proofs")] None)
           "Logic" "Proofs"); [repeat split; done | reflexivity..].
Defined.

(** Replacing the rows of one key commutes with a lookup by key. *)
Lemma filter_key_replace {A} (key : A → Z) (f : A → A) (rows : list A) i :
  (∀ x, key (f x) = key x) →
  filter (λ x, key x = i) (f <$> rows) = f <$> filter (λ x, key x = i) rows.
Proof.
  intros Hkey. induction rows as [|x rows IH]; [done|].
  rewrite fmap_cons, !filter_cons, Hkey.
  destruct (decide (key x = i)); [rewrite fmap_cons|]; by rewrite IH.
Qed.

(** X15.  The owner's [edit_course] POST overwrites the title and the
    description of the course and nothing else: the course keeps its id
    and its teacher, lookups of other course ids give what they gave
    before, and the other tables and the upload folder are untouched. *)
Theorem edit_course_owner w t course_id course req title description :
  teacher_session (session w) t →
  Course_get (db w) course_id = Some course → Course.teacher_id course = t →
  method req = POST → form req !! "title" = Some title →
  form req !! "description" = Some description →
  let w' := (edit_course course_id req w).2 in
  (edit_course course_id req w).1 = inr (RedirectTo ep_teacher_courses)
  ∧ Course_get (db w') course_id
    = Some (Course.mk course_id title description t)
  ∧ (∀ i, i ≠ course_id → Course_get (db w') i = Course_get (db w) i)
  ∧ users (db w') = users (db w) ∧ enrollments (db w') = enrollments (db w)
  ∧ lessons (db w') = lessons (db w)
  ∧ lesson_files (db w') = lesson_files (db w)
  ∧ uploads w' = uploads w ∧ session w' = session w.
Proof.
  intros Hs Hc Ho Hm Ht Hd w'. subst w'. unfold edit_course.
  rewrite (teacher_required_pass _ w t) by done.
  destruct Hs as (Hu & _ & _). unfold update_Course. run.
  rewrite Hc. simpl. rewrite Hu. simpl.
  rewrite decide_False by (intros Hne; by apply Hne).
  rewrite Hm, Ht. simpl. rewrite Hd. simpl.
  pose proof (Course_get_id _ _ _ Hc) as Hid.
  case_decide as Hsame; simpl.
  - repeat split; try done. by rewrite Hc, <- Hsame, Hid, Ho.
  - repeat split; try done.
    + unfold Course_get in *. simpl.
      rewrite (filter_key_replace Course.id) by (intros x; by case_decide).
      destruct (filter _ (courses (db w))) as [|c0 cs] eqn:Hrows; [done|].
      simpl in *. simplify_eq. by rewrite decide_True.
    + intros i Hi. unfold Course_get. simpl.
      rewrite (filter_key_replace Course.id) by (intros x; by case_decide).
      destruct (filter _ (courses (db w))) as [|c0 cs] eqn:Hrows; [done|].
      simpl. f_equal.
      assert (c0 ∈ filter (λ x, Course.id x = i) (courses (db w))) as Hin
        by (rewrite Hrows; by left).
      apply list_elem_of_filter in Hin as [Hc0 _].
      rewrite decide_False; [done|]. rewrite Hc0, Hid. done.
Qed.

Lemma edit_course_owner_witness :
  Course_get
    (db (edit_course 1
           (post [("title", "Linear algebra"); ("description", "Vectors")]
                 None)
           (demo_world (session_of alice))).2) 1
  = Some (Course.mk 1 "Linear algebra" "Vectors" 1).
Proof.
  apply (edit_course_owner (demo_world (session_of alice)) 1 1 algebra
           (post [("title", "Linear algebra"); ("description", "Vectors")]
                 None)
           "Linear algebra" "Vectors"); [repeat split; done | reflexivity..].
Defined.

(** ** More on lessons *)

Section LessonRoutes.

Context `{Werkzeug}.

(** X16.  A teacher who does not own the course cannot touch its lessons.
    [add_lesson] redirects to the teacher's course list and [edit_lesson]
    to the dashboard, both without a message and with the world unchanged,
    whatever the method and the form; [delete_lesson] redirects to the
    dashboard with the flash "You cannot delete this lesson" and removes
    neither rows nor files. *)
Theorem lesson_routes_forbidden w t req :
  teacher_session (session w) t →
  (∀ course_id course,
     Course_get (db w) course_id = Some course →
     Course.teacher_id course ≠ t →
     add_lesson course_id req w = (inr (RedirectTo ep_teacher_courses), w))
  ∧ (∀ lesson_id lesson course,
       Lesson_get (db w) lesson_id = Some lesson →
       Lesson_course (db w) lesson = Some course →
       Course.teacher_id course ≠ t →
       edit_lesson lesson_id req w = (inr (RedirectTo ep_dashboard), w)
       ∧ delete_lesson lesson_id w
         = (inr (RedirectTo ep_dashboard),
            with_flash "You cannot delete this lesson" w)).
Proof.
  intros Hs. pose proof Hs as (Hu & _ & _). split.
  - intros course_id course Hc Hne. unfold add_lesson.
    rewrite (teacher_required_pass _ w t) by done.
    run. rewrite Hc. simpl. rewrite Hu. simpl. by rewrite decide_True.
  - intros lesson_id lesson course Hl Hc Hne. split.
    + unfold edit_lesson, lesson_course.
      rewrite (teacher_required_pass _ w t) by done.
      run. rewrite Hl. simpl. rewrite Hc. simpl. rewrite Hu. simpl.
      by rewrite decide_True.
    + unfold delete_lesson, lesson_course.
      rewrite (teacher_required_pass _ w t) by done.
      run. rewrite Hl. simpl. rewrite Hc. simpl. rewrite Hu.
      rewrite decide_True by congruence. done.
Qed.

(** X17.  The owner's [edit_lesson] POST with a title and a content
    overwrites these two fields of the lesson and nothing else: the lesson
    keeps its id and its course, the other lessons can be looked up as
    before, and the LessonFile rows and the upload folder are untouched,
    so the attachments stay. *)
Theorem edit_lesson_owner w t lesson_id lesson course req title content :
  teacher_session (session w) t →
  Lesson_get (db w) lesson_id = Some lesson →
  Lesson_course (db w) lesson = Some course → Course.teacher_id course = t →
  method req = POST → form req !! "title" = Some title →
  form req !! "content" = Some content →
  let w' := (edit_lesson lesson_id req w).2 in
  (edit_lesson lesson_id req w).1
  = inr (RedirectTo (ep_course_detail (Course.id course)))
  ∧ Lesson_get (db w') lesson_id
    = Some (Lesson.mk lesson_id title (Some content)
                      (Lesson.course_id lesson))
  ∧ (∀ i, i ≠ lesson_id → Lesson_get (db w') i = Lesson_get (db w) i)
  ∧ lesson_files (db w') = lesson_files (db w)
  ∧ courses (db w') = courses (db w)
  ∧ enrollments (db w') = enrollments (db w)
  ∧ uploads w' = uploads w ∧ session w' = session w.
Proof.
  intros Hs Hl Hc Ho Hm Ht Hcontent w'. subst w'.
  unfold edit_lesson, lesson_course.
  rewrite (teacher_required_pass _ w t) by done.
  destruct Hs as (Hu & _ & _). unfold update_Lesson. run.
  rewrite Hl. simpl. rewrite Hc. simpl. rewrite Hu. simpl.
  rewrite decide_False by (intros Hne; by apply Hne).
  rewrite Hm, Ht. simpl. rewrite Hcontent.
  pose proof (Lesson_get_id _ _ _ Hl) as Hid.
  case_decide as Hsame; simpl.
  - repeat split; try done. by rewrite Hl, <- Hsame, Hid.
  - repeat split; try done.
    + unfold Lesson_get in *. simpl.
      rewrite (filter_key_replace Lesson.id) by (intros x; by case_decide).
      destruct (filter _ (lessons (db w))) as [|l0 ls] eqn:Hrows; [done|].
      simpl in *. simplify_eq. by rewrite decide_True.
    + intros i Hi. unfold Lesson_get. simpl.
      rewrite (filter_key_replace Lesson.id) by (intros x; by case_decide).
      destruct (filter _ (lessons (db w))) as [|l0 ls] eqn:Hrows; [done|].
      simpl. f_equal.
      assert (l0 ∈ filter (λ x, Lesson.id x = i) (lessons (db w))) as Hin
        by (rewrite Hrows; by left).
      apply list_elem_of_filter in Hin as [Hl0 _].
      rewrite decide_False; [done|]. rewrite Hl0, Hid. done.
Qed.

(** X18.  [edit_lesson] never alters attachments: whoever calls it, with
    whatever request and on whatever lesson id, the LessonFile rows and
    the upload folder after the call are the ones before it. *)
Theorem edit_lesson_keeps_attachments lesson_id req w :
  lesson_files (db (edit_lesson lesson_id req w).2) = lesson_files (db w)
  ∧ uploads (edit_lesson lesson_id req w).2 = uploads w.
Proof.
  unfold edit_lesson, teacher_required, lesson_course, update_Lesson.
  cbv beta iota delta [mbind M_bind bind ret raise get_session get_db
    put_session put_db emit flash redirect get_or_404 session_user_id
    form_item form_get]. simpl.
  repeat (case_match; simpl; try done); simplify_eq; done.
Qed.

End LessonRoutes.

Lemma lesson_routes_forbidden_witness :
  delete_lesson 1 (demo_world (session_of bob))
  = (inr (RedirectTo ep_dashboard),
     with_flash "You cannot delete this lesson"
                (demo_world (session_of bob))).
Proof.
  destruct (lesson_routes_forbidden (H := demo_werkzeug)
              (demo_world (session_of bob)) 2 get) as [_ Hlesson];
    [repeat split; done|].
  apply (Hlesson 1 (Lesson.mk 1 "Groups" (Some "A group is ...") 1) algebra);
    done.
Defined.

Lemma edit_lesson_owner_witness :
  Lesson_get
    (db (edit_lesson 1
           (post [("title", "Monoids"); ("content", "A monoid is ...")] None)
           (demo_world (session_of alice))).2) 1
  = Some (Lesson.mk 1 "Monoids" (Some "A monoid is ...") 1).
Proof.
  apply (edit_lesson_owner (demo_world (session_of alice)) 1 1
           (Lesson.mk 1 "Groups" (Some "A group is ...") 1) algebra
           (post [("title", "Monoids"); ("content", "A monoid is ...")] None)
           "Monoids" "A monoid is ..."); [repeat split; done | reflexivity..].
Defined.

(** ** More on files *)

Lemma uploaded_file_found w u name data :
  user_id (session w) = Some u → u ≠ 0 → uploads w !! name = Some data →
  uploaded_file name w = (inr (SendFile data), w).
Proof.
  intros Hu Hne Hdata. unfold uploaded_file.
  rewrite (login_required_pass _ w u) by done.
  unfold send_from_directory. run. by rewrite Hdata.
Qed.

(** X19.  [uploaded_file] checks nothing but the login: every logged-in
    caller, whatever the role and whether or not the caller owns or is
    enrolled in any course, is sent the bytes stored under the name, and
    the world is unchanged. *)
Theorem uploaded_file_any_user w u name data :
  user_id (session w) = Some u → u ≠ 0 → uploads w !! name = Some data →
  uploaded_file name w = (inr (SendFile data), w).
Proof. apply uploaded_file_found. Qed.

Lemma uploaded_file_any_user_witness :
  uploaded_file "notes.pdf" (demo_world (session_of bob))
  = (inr (SendFile [x25; x50]), demo_world (session_of bob)).
Proof.
  apply (uploaded_file_any_user (demo_world (session_of bob)) 2); done.
Defined.

Section Files.

Context `{Werkzeug}.

(** X20.  Upload and download fit together, and the last upload wins.
    After the owner's successful [add_lesson] with a file, every logged-in
    caller's [uploaded_file] for the sanitized name returns exactly the
    uploaded bytes, whatever was stored under that name before; a
    LessonFile row of another lesson with the same name is still in the
    table, so that lesson's attachment now is the new file. *)
Theorem add_lesson_then_download w t course_id course req title content file
    s u :
  teacher_session (session w) t →
  Course_get (db w) course_id = Some course → Course.teacher_id course = t →
  method req = POST → form req !! "title" = Some title →
  form req !! "content" = Some content →
  files_file req = Some file → file_filename file ≠ "" →
  save_raises req = false → secure_filename (file_filename file) ≠ "" →
  file_row_commit_raises req = false →
  user_id s = Some u → u ≠ 0 →
  let name := secure_filename (file_filename file) in
  let w1 := (add_lesson course_id req w).2 in
  uploaded_file name (with_session s w1)
  = (inr (SendFile (file_data file)), with_session s w1)
  ∧ (∀ other, other ∈ lesson_files (db w) → other ∈ lesson_files (db w1)).
Proof.
  intros Hs Hc Ho Hm Ht Hcontent Hfile Hname Hsave Hsafe Hrow Hu Hne name w1.
  subst w1.
  rewrite (add_lesson_with_file w t course_id course req title content file)
    by done.
  cbn [snd]. split.
  - apply (uploaded_file_found _ u); [done..|]. simpl.
    apply lookup_insert_eq.
  - intros other Hin. simpl. apply elem_of_app. by left.
Qed.

(** X21.  The round trip of a lesson with a file: after the owner's
    successful [add_lesson] with a file, the owner's [delete_lesson] of
    the new lesson removes the lesson, and [uploaded_file] for the file's
    name then aborts with 404 for every logged-in caller. *)
Theorem add_then_delete_lesson w t course_id course req title content file
    s u :
  teacher_session (session w) t →
  Course_get (db w) course_id = Some course → Course.teacher_id course = t →
  method req = POST → form req !! "title" = Some title →
  form req !! "content" = Some content →
  files_file req = Some file → file_filename file ≠ "" →
  save_raises req = false → secure_filename (file_filename file) ≠ "" →
  file_row_commit_raises req = false →
  user_id s = Some u → u ≠ 0 →
  let name := secure_filename (file_filename file) in
  let n := next_id (Lesson.id <$> lessons (db w)) in
  let w1 := (add_lesson course_id req w).2 in
  let w2 := (delete_lesson n w1).2 in
  (delete_lesson n w1).1 = inr (RedirectTo (ep_course_detail course_id))
  ∧ Lesson_get (db w2) n = None
  ∧ lessons (db w2) = lessons (db w)
  ∧ uploads w2 !! name = None
  ∧ uploaded_file name (with_session s w2)
    = (inl NotFound, with_session s w2).
Proof.
  intros Hs Hc Ho Hm Ht Hcontent Hfile Hname Hsave Hsafe Hrow Hu Hne name n
    w1 w2.
  subst w1 w2.
  rewrite (add_lesson_with_file w t course_id course req title content file)
    by done.
  cbn [snd]. fold name. fold n.
  set (lesson := new_lesson title content course_id w).
  set (w1 := mkWorld _ _ _ _).
  assert (Lesson_get (db w1) n = Some lesson) as Hl.
  { unfold Lesson_get. simpl.
    apply (head_filter_fresh_row Lesson.id (lessons (db w)) lesson). done. }
  assert (Lesson_course (db w1) lesson = Some course) as Hlc by done.
  rewrite (delete_lesson_owner w1 t n lesson course) by done.
  cbn [fst snd].
  assert (without_files (uploads w1) (Lesson_files (db w1) lesson) !! name
          = None) as Hgone.
  { rewrite without_files_lookup, decide_True; [done|].
    apply list_elem_of_fmap.
    exists (LessonFile.mk (next_id (LessonFile.id <$> lesson_files (db w)))
                          name n).
    split; [done|]. unfold Lesson_files. apply list_elem_of_filter.
    split; [done|]. simpl. apply elem_of_app. right. by left. }
  split; [by rewrite (Course_get_id _ _ _ Hc)|]. split; [|split; [|split]].
  - unfold Lesson_get. simpl. rewrite filter_excluded; [done|naive_solver].
  - simpl.
    apply (filter_fresh_row Lesson.id (lessons (db w)) lesson). done.
  - done.
  - by apply (uploaded_file_missing _ u).
Qed.

End Files.

Lemma add_lesson_then_download_witness :
  uploaded_file "notes.pdf"
    (with_session (session_of carol)
       (add_lesson (H := demo_werkzeug) 1
          (post [("title", "Fields"); ("content", "A field is ...")]
                (Some (mkFile "notes.pdf" [x46])))
          (demo_world (session_of alice))).2)
  = (inr (SendFile [x46]),
     with_session (session_of carol)
       (add_lesson (H := demo_werkzeug) 1
          (post [("title", "Fields"); ("content", "A field is ...")]
                (Some (mkFile "notes.pdf" [x46])))
          (demo_world (session_of alice))).2).
Proof.
  apply (add_lesson_then_download (H := demo_werkzeug)
           (demo_world (session_of alice)) 1 1 algebra
           (post [("title", "Fields"); ("content", "A field is ...")]
                 (Some (mkFile "notes.pdf" [x46])))
           "Fields" "A field is ..." (mkFile "notes.pdf" [x46])
           (session_of carol) 3); done.
Defined.

Lemma add_then_delete_lesson_witness :
  (uploaded_file "fields.pdf"
     (with_session (session_of carol)
        (delete_lesson 3
           (add_lesson (H := demo_werkzeug) 1
              (post [("title", "Fields"); ("content", "A field is ...")]
                    (Some (mkFile "fields.pdf" [x46])))
              (demo_world (session_of alice))).2).2)).1
  = inl NotFound.
Proof.
  destruct (add_then_delete_lesson (H := demo_werkzeug)
              (demo_world (session_of alice)) 1 1 algebra
              (post [("title", "Fields"); ("content", "A field is ...")]
                    (Some (mkFile "fields.pdf" [x46])))
              "Fields" "A field is ..." (mkFile "fields.pdf" [x46])
              (session_of carol) 3) as (_ & _ & _ & _ & Hdown); [done..|].
  exact (f_equal fst Hdown).
Defined.

(** ** References between the tables *)

Lemma Course_get_elem d i c :
  Course_get d i = Some c → i ∈ Course.id <$> courses d.
Proof.
  unfold Course_get. intros Hc%head_Some_elem_of.
  apply list_elem_of_filter in Hc as [<- Hc]. by apply list_elem_of_fmap_2.
Qed.

Lemma Course_get_is_Some d i :
  i ∈ Course.id <$> courses d → is_Some (Course_get d i).
Proof.
  intros (c & -> & Hc)%list_elem_of_fmap. unfold Course_get.
  destruct (filter _ (courses d)) as [|c' cs] eqn:Hrows; [|by eexists].
  exfalso. by apply (filter_nil_not_elem_of _ _ c Hrows).
Qed.

Lemma Lesson_get_elem d i l :
  Lesson_get d i = Some l → l ∈ lessons d ∧ Lesson.id l = i.
Proof.
  unfold Lesson_get. intros Hl%head_Some_elem_of.
  by apply list_elem_of_filter in Hl as [? ?].
Qed.

Lemma refs_ok_add_Lesson d l :
  refs_ok d → Lesson.course_id l ∈ Course.id <$> courses d →
  refs_ok (mkDB (users d) (courses d) (enrollments d) (lessons d ++ [l])
                (lesson_files d)).
Proof.
  intros [Hl Hf] Hc. split.
  - intros x [Hx | ->%list_elem_of_singleton]%elem_of_app; [by apply Hl|done].
  - intros f Hin. simpl. rewrite fmap_app. apply elem_of_app. left.
    by apply Hf.
Qed.

Lemma refs_ok_add_LessonFile d f :
  refs_ok d → LessonFile.lesson_id f ∈ Lesson.id <$> lessons d →
  refs_ok (mkDB (users d) (courses d) (enrollments d) (lessons d)
                (lesson_files d ++ [f])).
Proof.
  intros [Hl Hf] Hin. split; [done|].
  intros x [Hx | ->%list_elem_of_singleton]%elem_of_app; [by apply Hf|done].
Qed.

Lemma refs_ok_update_Lesson d l l' :
  refs_ok d → l ∈ lessons d → Lesson.id l' = Lesson.id l →
  Lesson.course_id l' = Lesson.course_id l →
  refs_ok (mkDB (users d) (courses d) (enrollments d)
                ((λ x, if decide (Lesson.id x = Lesson.id l) then l' else x)
                   <$> lessons d)
                (lesson_files d)).
Proof.
  intros [Hl Hf] Hin Hid Hcourse. split.
  - intros x (y & -> & Hy)%list_elem_of_fmap. simpl.
    case_decide; [rewrite Hcourse|]; by apply Hl.
  - intros f Hfin. simpl. rewrite fmap_key_replace; [by apply Hf|].
    intros x. case_decide; congruence.
Qed.

Lemma refs_ok_ext d d' :
  courses d' = courses d → lessons d' = lessons d →
  lesson_files d' = lesson_files d → refs_ok d → refs_ok d'.
Proof.
  intros Hc Hl Hf [Hlc Hfl]. split.
  - intros l. rewrite Hl, Hc. apply Hlc.
  - intros f. rewrite Hf, Hl. apply Hfl.
Qed.

Lemma db_inv_refs_add_User name email password role :
  db_inv refs_ok (add_User name email password role).
Proof.
  intros w Hok. unfold add_User. run. case_decide; [done|].
  by apply (refs_ok_ext (db w)).
Qed.
Lemma db_inv_refs_add_Enrollment student_id course_id :
  db_inv refs_ok (add_Enrollment student_id course_id).
Proof. intros w Hok. by apply (refs_ok_ext (db w)). Qed.
Lemma db_inv_refs_delete_Enrollment e :
  db_inv refs_ok (delete_Enrollment e).
Proof. intros w Hok. by apply (refs_ok_ext (db w)). Qed.

Lemma db_inv_refs_add_Course title description teacher_id :
  db_inv refs_ok (add_Course title description teacher_id).
Proof.
  intros w [Hl Hf]. split; [|done]. intros l Hin. simpl.
  rewrite fmap_app. apply elem_of_app. left. by apply Hl.
Qed.

Lemma db_inv_refs_update_Course c title description :
  db_inv refs_ok (update_Course c title description).
Proof.
  intros w [Hl Hf]. unfold update_Course. run. case_decide; [done|].
  split; [|done]. intros l Hin. simpl.
  rewrite fmap_key_replace; [by apply Hl|]. intros x. by case_decide.
Qed.

Lemma db_inv_refs_delete_Course c : db_inv refs_ok (delete_Course c).
Proof.
  intros w [Hl Hf]. unfold delete_Course. run.
  destruct (Course_lessons (db w) c) as [|l0 ls] eqn:Hnone; [|done].
  destruct (Enrollment_by_course (db w) (Course.id c)); [|done].
  split; [|done]. intros l Hin. simpl.
  specialize (Hl l Hin). apply list_elem_of_fmap in Hl as (c' & Hid & Hc').
  apply list_elem_of_fmap. exists c'. split; [done|].
  apply list_elem_of_filter. split; [|done]. intros Heq.
  apply (filter_nil_not_elem_of _ _ l Hnone); [congruence|done].
Qed.

Lemma db_inv_refs_delete_Lesson l : db_inv refs_ok (delete_Lesson l).
Proof.
  intros w [Hl Hf]. split.
  - intros x [_ Hx]%list_elem_of_filter. by apply Hl.
  - intros f [Hne Hin]%list_elem_of_filter. simpl.
    specialize (Hf f Hin). apply list_elem_of_fmap in Hf as (l' & Hid & Hl').
    apply list_elem_of_fmap. exists l'. split; [done|].
    apply list_elem_of_filter. split; [congruence|done].
Qed.

#[local] Hint Resolve db_inv_refs_add_User db_inv_refs_add_Enrollment
  db_inv_refs_delete_Enrollment db_inv_refs_add_Course
  db_inv_refs_update_Course db_inv_refs_delete_Course
  db_inv_refs_delete_Lesson : lms.

Section References.

Context `{Werkzeug}.

Lemma db_inv_refs_add_lesson course_id req :
  db_inv refs_ok (add_lesson course_id req).
Proof.
  intros w Hok.
  unfold add_lesson, teacher_required, add_Lesson, file_save, add_LessonFile.
  run.
  destruct (truthy_id _); simpl; [|done].
  case_decide; simpl; [done|].
  destruct (Course_get (db w) course_id) as [course|] eqn:Hc; simpl; [|done].
  destruct (user_id (session w)); simpl; [|done].
  case_decide; simpl; [done|].
  destruct (method req); simpl; [done|].
  destruct (form req !! "title"); simpl; [|done].
  destruct (form req !! "content") as [content|]; simpl; [|done].
  assert (refs_ok (mkDB (users (db w)) (courses (db w)) (enrollments (db w))
                        (lessons (db w)
                           ++ [Lesson.mk
                                 (next_id (Lesson.id <$> lessons (db w)))
                                 s (Some content) (Course.id course)])
                        (lesson_files (db w)))) as Hok'.
  { apply refs_ok_add_Lesson; [done|]. simpl.
    rewrite (Course_get_id _ _ _ Hc). by eapply Course_get_elem. }
  destruct (files_file req) as [file|]; simpl; [|done].
  case_decide; simpl; [|done].
  destruct (save_raises req); simpl; [done|].
  case_decide; simpl; [done|].
  destruct (file_row_commit_raises req); simpl; [done|].
  refine (refs_ok_add_LessonFile _ (LessonFile.mk _ _ _) Hok' _). simpl.
  rewrite fmap_app. apply elem_of_app. right. by left.
Qed.

Lemma db_inv_refs_edit_lesson lesson_id req :
  db_inv refs_ok (edit_lesson lesson_id req).
Proof.
  intros w Hok.
  unfold edit_lesson, teacher_required, lesson_course, update_Lesson.
  run.
  destruct (truthy_id _); simpl; [|done].
  case_decide; simpl; [done|].
  destruct (Lesson_get (db w) lesson_id) as [lesson|] eqn:Hl; simpl; [|done].
  destruct (Lesson_course (db w) lesson); simpl; [|done].
  destruct (user_id (session w)); simpl; [|done].
  case_decide; simpl; [done|].
  destruct (method req); simpl; [done|].
  destruct (form req !! "title"); simpl; [|done].
  case_decide; simpl; [done|].
  destruct (form req !! "content") as [content|]; simpl; [|done].
  apply Lesson_get_elem in Hl as [Hin _].
  by refine (refs_ok_update_Lesson (db w) lesson (Lesson.mk _ _ _ _) Hok Hin
               _ _).
Qed.

Lemma db_inv_refs_handle r req : db_inv refs_ok (handle r req).
Proof.
  destruct r; simpl;
    try apply db_inv_refs_add_lesson; try apply db_inv_refs_edit_lesson;
    unfold_routes; split_route.
Qed.

(** X22.  In every reachable world every lesson belongs to a course of the
    course table and every LessonFile row to a lesson of the lesson table:
    lessons are only added to existing courses, a course with lessons
    cannot be deleted, and a lesson goes together with its file rows.  So
    [lesson.course] is never missing and the lesson routes never fail on
    it. *)
Theorem reachable_refs_ok w :
  reachable w →
  refs_ok (db w)
  ∧ ∀ l, l ∈ lessons (db w) → is_Some (Lesson_course (db w) l).
Proof.
  intros Hreach.
  assert (refs_ok (db w)) as Hok.
  { induction Hreach as [s | w r req _ IH | w s _ IH]; simpl.
    - split; by intros x ?%elem_of_nil.
    - by apply db_inv_refs_handle.
    - done. }
  split; [done|]. intros l Hl. apply Course_get_is_Some. by apply Hok.
Qed.

End References.

Lemma reachable_refs_ok_witness :
  refs_ok (db (serve (H := demo_werkzeug) demo_script
                     (mkWorld anonymous empty_db ∅ []))).
Proof.
  apply (reachable_refs_ok (H := demo_werkzeug)).
  apply serve_reachable, reachable_init.
Defined.

(** ** What a request leaves alone *)

Section Keeps.

Context {X A B : Type} (π : World → X).

Lemma keeps_ret (a : A) : keeps π (ret a).
Proof. done. Qed.

Lemma keeps_raise e : keeps π (raise (A := A) e).
Proof. done. Qed.

Lemma keeps_bind (m : M A) (k : A → M B) :
  keeps π m → (∀ a, keeps π (k a)) → keeps π (m ≫= k).
Proof.
  intros Hm Hk w. unfold mbind, M_bind, bind. specialize (Hm w).
  destruct (m w) as [[e|a] w']; simpl in *; [done|].
  by rewrite Hk.
Qed.

Lemma keeps_get_session : keeps π get_session.
Proof. done. Qed.
Lemma keeps_get_db : keeps π get_db.
Proof. done. Qed.
Lemma keeps_get_uploads : keeps π get_uploads.
Proof. done. Qed.

End Keeps.

Lemma keeps_store_put_session s : keeps store (put_session s).
Proof. done. Qed.
Lemma keeps_identity_put_db d : keeps identity (put_db d).
Proof. done. Qed.
Lemma keeps_identity_put_uploads u : keeps identity (put_uploads u).
Proof. done. Qed.
Lemma keeps_identity_emit es : keeps identity (emit es).
Proof. done. Qed.
Lemma keeps_identity_flash msg : keeps identity (flash msg).
Proof. done. Qed.

Create HintDb lms_keeps.

#[local] Hint Resolve keeps_ret keeps_raise keeps_get_session keeps_get_db
  keeps_get_uploads keeps_store_put_session keeps_identity_put_db
  keeps_identity_put_uploads keeps_identity_emit keeps_identity_flash
  : lms_keeps.

(** Splits a goal [keeps π m] along the binds and the case distinctions
    of [m], once the routes and the primitives are unfolded. *)
Ltac split_keeps :=
  unfold_routes;
  unfold login_required, teacher_required, get_or_404, form_item, redirect,
    session_user_id, session_user_role, send_from_directory, os_path_exists,
    os_remove, file_save, add_User, add_Course, add_Enrollment, add_Lesson,
    add_LessonFile, update_Course, update_Lesson, delete_Course,
    delete_Enrollment, delete_Lesson;
  repeat first
    [ solve [eauto 2 with lms_keeps]
    | apply keeps_bind; [|intros ?]
    | case_match
    | case_decide ].

Lemma keeps_identity_remove_physical_files files :
  keeps identity (remove_physical_files files).
Proof. induction files; simpl; split_keeps. Qed.

#[local] Hint Resolve keeps_identity_remove_physical_files : lms_keeps.

Section Frames.

Context `{Werkzeug}.

(** X23.  The requests that only read leave the database, the upload
    folder and the journal exactly as they are, whoever sends them: home,
    dashboard, the teacher's course list, the list of all courses, a
    course's detail, a file download, and the GET side of signup, login,
    create course, edit course, add lesson and edit lesson. *)
Theorem reads_only_keeps_store r req w :
  reads_only r req = true →
  db (handle r req w).2 = db w
  ∧ uploads (handle r req w).2 = uploads w
  ∧ journal (handle r req w).2 = journal w.
Proof.
  intros Hr.
  assert (keeps store (handle r req)) as Hkeeps.
  { destruct r; simpl in *; try discriminate Hr;
      try (destruct (method req) eqn:Hm; [|discriminate Hr]);
      split_keeps; simplify_eq. }
  specialize (Hkeeps w). unfold store in Hkeeps. by simplify_eq.
Qed.

(** X24.  Only [login] and [logout] change who the client is: every other
    route, whatever it does to the store and to the flashes, leaves the
    user id, the user name and the role of the session as they were. *)
Theorem identity_kept r req w :
  changes_identity r = false →
  user_id (session (handle r req w).2) = user_id (session w)
  ∧ user_name (session (handle r req w).2) = user_name (session w)
  ∧ user_role (session (handle r req w).2) = user_role (session w).
Proof.
  intros Hr.
  assert (keeps identity (handle r req)) as Hkeeps.
  { destruct r; simpl in *; try discriminate Hr; split_keeps. }
  specialize (Hkeeps w). unfold identity in Hkeeps. by simplify_eq.
Qed.

End Frames.

Lemma reads_only_keeps_store_witness :
  db (handle (H := demo_werkzeug) (r_course_detail 1) get
             (demo_world (session_of carol))).2 = demo_db.
Proof.
  apply (reads_only_keeps_store (H := demo_werkzeug) (r_course_detail 1) get
           (demo_world (session_of carol))). reflexivity.
Defined.

Lemma identity_kept_witness :
  user_id (session (handle (H := demo_werkzeug) (r_delete_lesson 1) get
                           (demo_world (session_of alice))).2) = Some 1.
Proof.
  apply (identity_kept (H := demo_werkzeug) (r_delete_lesson 1) get
           (demo_world (session_of alice))). reflexivity.
Defined.

(** ** Further edge cases *)

(** X25.  The owner's [delete_course] on a course that has no lesson and
    no enrollment removes the course: the course id can no longer be
    looked up, every other course id gives what it gave before, and the
    other tables and the upload folder are untouched. *)
Theorem delete_course_owner_childless w t course_id course :
  teacher_session (session w) t →
  Course_get (db w) course_id = Some course → Course.teacher_id course = t →
  Course_lessons (db w) course = [] →
  Enrollment_by_course (db w) (Course.id course) = [] →
  let w' := (delete_course course_id w).2 in
  (delete_course course_id w).1 = inr (RedirectTo ep_teacher_courses)
  ∧ Course_get (db w') course_id = None
  ∧ (∀ i, i ≠ course_id → Course_get (db w') i = Course_get (db w) i)
  ∧ users (db w') = users (db w) ∧ enrollments (db w') = enrollments (db w)
  ∧ lessons (db w') = lessons (db w)
  ∧ lesson_files (db w') = lesson_files (db w)
  ∧ uploads w' = uploads w ∧ session w' = session w.
Proof.
  intros Hs Hc Ho Hl He w'. subst w'.
  rewrite (delete_course_without_children w t course_id course) by done.
  simpl. repeat split.
  - unfold Course_get. simpl. rewrite filter_excluded; [done|naive_solver].
  - intros i Hi. unfold Course_get. simpl. rewrite list_filter_filter.
    f_equal. apply filter_ext_in. intros x _. split; [by intros [? _]|].
    intros Hx. split; [done|congruence].
Qed.

Lemma delete_course_owner_childless_witness :
  Course_get
    (db (delete_course 1
           (mkWorld (session_of alice)
                    (mkDB [alice] [algebra] [] [] []) ∅ [])).2) 1
  = None.
Proof.
  apply (delete_course_owner_childless
           (mkWorld (session_of alice) (mkDB [alice] [algebra] [] [] []) ∅ [])
           1 1 algebra); [repeat split; done | reflexivity..].
Defined.

Section Edges.

Context `{Werkzeug}.

(** X26.  A lesson without a file: when the owner's [add_lesson] POST has
    a title and a content but no file, or a file with an empty filename,
    exactly one Lesson row is stored; no LessonFile row is written and the
    upload folder is untouched. *)
Theorem add_lesson_without_file w t course_id course req title content :
  teacher_session (session w) t →
  Course_get (db w) course_id = Some course → Course.teacher_id course = t →
  method req = POST → form req !! "title" = Some title →
  form req !! "content" = Some content →
  files_file req = None
  ∨ (∃ file, files_file req = Some file ∧ file_filename file = "") →
  add_lesson course_id req w
  = (inr (RedirectTo (ep_course_detail course_id)),
     with_lesson (new_lesson title content course_id w) w).
Proof.
  intros Hs Hc Ho Hm Ht Hcontent Hfile.
  rewrite (add_lesson_owner_post w t course_id course req title) by done.
  unfold add_Lesson. run. rewrite Hcontent. simpl.
  rewrite (Course_get_id _ _ _ Hc).
  destruct Hfile as [-> | (file & -> & Hempty)]; [done|].
  by rewrite decide_False by (intros Hne; by apply Hne).
Qed.

(** X27.  A login POST without the password field tells a known email
    from an unknown one: for an unknown email the answer is the usual
    "Invalid credentials" redirect, for a known email the password is
    looked up in the form and the request aborts with 400.  Neither run
    changes the store or logs anyone in. *)
Theorem login_without_password req w email :
  method req = POST → form req !! "email" = Some email →
  form req !! "password" = None →
  (email ∉ User.email <$> users (db w) →
   login req w
   = (inr (RedirectTo ep_login), with_flash "Invalid credentials" w))
  ∧ (email ∈ User.email <$> users (db w) →
     login req w = (inl BadRequest, w)).
Proof.
  intros Hm He Hp. unfold login. rewrite Hm. run. rewrite He. simpl. split.
  - intros Hnew. by rewrite (User_by_email_unknown _ _ Hnew).
  - intros Hknown. destruct (User_by_email_known _ _ Hknown) as [u ->].
    by rewrite Hp.
Qed.

(** X28.  For a logged-in teacher, the routes that start with
    [get_or_404] abort with 404 on an id that is not in the table, and
    change nothing: [add_lesson] and [course_detail] on a missing course,
    [edit_lesson] and [delete_lesson] on a missing lesson. *)
Theorem routes_not_found w t req :
  teacher_session (session w) t →
  (∀ course_id, Course_get (db w) course_id = None →
     add_lesson course_id req w = (inl NotFound, w)
     ∧ course_detail course_id w = (inl NotFound, w))
  ∧ (∀ lesson_id, Lesson_get (db w) lesson_id = None →
       edit_lesson lesson_id req w = (inl NotFound, w)
       ∧ delete_lesson lesson_id w = (inl NotFound, w)).
Proof.
  intros Hs. pose proof Hs as (Hu & Hne & _). split.
  - intros course_id Hc. split.
    + unfold add_lesson. rewrite (teacher_required_pass _ w t) by done.
      run. by rewrite Hc.
    + unfold course_detail. rewrite (login_required_pass _ w t) by done.
      run. by rewrite Hc.
  - intros lesson_id Hl. split.
    + unfold edit_lesson. rewrite (teacher_required_pass _ w t) by done.
      run. by rewrite Hl.
    + unfold delete_lesson. rewrite (teacher_required_pass _ w t) by done.
      run. by rewrite Hl.
Qed.

End Edges.

Lemma add_lesson_without_file_witness :
  add_lesson (H := demo_werkzeug) 1
    (post [("title", "Fields"); ("content", "A field is ...")] None)
    (demo_world (session_of alice))
  = (inr (RedirectTo (ep_course_detail 1)),
     with_lesson (Lesson.mk 3 "Fields" (Some "A field is ...") 1)
                 (demo_world (session_of alice))).
Proof.
  apply (add_lesson_without_file (H := demo_werkzeug)
           (demo_world (session_of alice)) 1 1 algebra
           (post [("title", "Fields"); ("content", "A field is ...")] None)
           "Fields" "A field is ...");
    [repeat split; done | reflexivity.. | by left].
Defined.

Lemma login_without_password_witness :
  login (H := demo_werkzeug) (post [("email", "alice@example.org")] None)
        (demo_world anonymous)
  = (inl BadRequest, demo_world anonymous)
  ∧ login (H := demo_werkzeug) (post [("email", "nobody@example.org")] None)
          (demo_world anonymous)
    = (inr (RedirectTo ep_login),
       with_flash "Invalid credentials" (demo_world anonymous)).
Proof.
  split.
  - apply (login_without_password (H := demo_werkzeug)
             (post [("email", "alice@example.org")] None)
             (demo_world anonymous) "alice@example.org");
      [reflexivity.. |]. apply list_elem_of_here.
  - apply (login_without_password (H := demo_werkzeug)
             (post [("email", "nobody@example.org")] None)
             (demo_world anonymous) "nobody@example.org");
      [reflexivity.. |].
    intros Hin. repeat (apply elem_of_cons in Hin as [Hin|Hin];
                        [discriminate Hin|]).
    by apply elem_of_nil in Hin.
Defined.

Lemma routes_not_found_witness :
  delete_lesson 9 (demo_world (session_of alice))
  = (inl NotFound, demo_world (session_of alice)).
Proof.
  destruct (routes_not_found (H := demo_werkzeug)
              (demo_world (session_of alice)) 1 get) as [_ Hlesson];
    [repeat split; done|].
  apply (Hlesson 9). reflexivity.
Defined.
